(** * LogBox: console interception, classification and installation

    A shallow embedding of [Libraries/LogBox/LogBox.js] (the [__DEV__]
    branch).  The module-level [let] variables of the file, the [console]
    object and the observable calls into the collaborators
    ([LogBoxData], [RCTLog], the host console) form one explicit [world];
    every function of the file is a computation in a state-and-exception
    monad over that world. *)

From Stdlib Require Import String Ascii List Bool Arith Lia.
From stdpp Require Import base option gmap strings fin_maps.
Import ListNotations.

Local Open Scope string_scope.
Local Open Scope list_scope.

(** ** Results of calls that may throw *)

(** Thrown values are kept as their message. *)
Definition exn := string.

Inductive result (A : Type) :=
| Ok (a : A)
| Throw (e : exn).
Arguments Ok {A} a.
Arguments Throw {A} e.

(** ** JavaScript values seen by the classifier *)

Module Js.

(** [Array<mixed>] arguments.  The file only observes [typeof v === 'string'],
    [String(v)], [v === true] and the string methods, so an object is kept
    as its [String(...)] rendering, [None] when that conversion throws (a
    throwing [toString], an object without prototype). *)
Inductive value :=
| VUndefined
| VNull
| VBool (b : bool)
| VStr (s : string)
| VObj (rendering : option string).

(** [String(v)] *)
Definition String_ (v : value) : result string :=
  match v with
  | VUndefined => Ok "undefined"
  | VNull => Ok "null"
  | VBool true => Ok "true"
  | VBool false => Ok "false"
  | VStr s => Ok s
  | VObj (Some r) => Ok r
  | VObj None => Throw "TypeError: Cannot convert object to primitive value"
  end.

(** [args[0]]: reading past the end of an array gives [undefined]. *)
Definition arg0 (args : list value) : value :=
  match args with
  | [] => VUndefined
  | v :: _ => v
  end.

(** [args[0] = v]: writing index 0 of an empty array extends it. *)
Definition set_arg0 (v : value) (args : list value) : list value :=
  match args with
  | [] => [v]
  | _ :: rest => v :: rest
  end.

(** [s.startsWith(p)] *)
Definition startsWith (p s : string) : bool := String.prefix p s.

Fixpoint drop_chars (n : nat) (s : string) : string :=
  match n, s with
  | O, _ => s
  | S _, EmptyString => EmptyString
  | S k, String _ rest => drop_chars k rest
  end.

(** [s.replace(pat, rep)] with a string pattern: only the first occurrence
    is replaced ([rep] is used here without [$] patterns). *)
Fixpoint replace (pat rep s : string) : string :=
  if String.prefix pat s then rep ++ drop_chars (String.length pat) s
  else match s with
       | EmptyString => EmptyString
       | String c rest => String c (replace pat rep rest)
       end.

End Js.
Import Js.

(** ** Function values

    The functions that can sit on [console.error]/[console.warn] or in one of
    the module's slots. *)
Inductive func :=
| Native (name : string)              (* a host function, e.g. the platform console *)
| Bound (f : func)                    (* [f.bind(console)] *)
| Decorated (id : nat) (inner : func) (* another interceptor's closure around [inner] *)
| ErrorWrapper                        (* [(...args) => { consoleErrorImpl(...args); }] *)
| WarnWrapper                         (* [(...args) => { consoleWarnImpl(...args); }] *)
| RegisterError                       (* [registerError] *)
| RegisterWarning                     (* [registerWarning] *)
| WarningHandler.                     (* [(...args) => { registerWarning(...args); }] *)

(** ** Records handed to the downstream store *)

Inductive Level := warn | error | fatal.

Record Message := { content : string; substitutions : list (nat * nat) }.

Record ParsedLog := {
  p_category : string;
  p_message : Message;
  p_componentStack : list string
}.

Record LogData := {
  level : Level;
  category : string;
  message : Message;
  componentStack : list string
}.

Record FilterResult := {
  finalFormat : string;
  forceDialogImmediately : bool;
  suppressDialog_LEGACY : bool;
  suppressCompletely : bool
}.

(** The payload of [addException]; its type is declared in
    [./Data/parseLogBoxLog] and this file only forwards it. *)
Inductive ExtendedExceptionData :=
| ExceptionData (message : string) (isComponentError : bool).

(** ** Observable calls into the collaborators *)
Inductive event :=
| HostCall (name : string) (args : list value)   (* a host function ran *)
| DecoratorCall (id : nat) (args : list value)   (* another interceptor ran *)
| AddLog (log : LogData)                         (* [LogBoxData.addLog] *)
| AddException (err : ExtendedExceptionData)     (* [LogBoxData.addException] *)
| ReportLogBoxError (err : exn)                  (* [LogBoxData.reportLogBoxError] *)
| SetDisabled (v : bool)                         (* [LogBoxData.setDisabled] *)
| RequireNativeLogBox                            (* [require('.../NativeLogBox')] *)
| SetWarningHandler (h : func).                  (* [RCTLog.setWarningHandler] *)

(** ** Properties of the [console] object *)
Inductive prop :=
| PMethod (f : func)        (* data property holding a function *)
| PData (v : value)         (* data property holding another value *)
| PLegacyAccessor.          (* the get/set pair defined at lines 85-94 *)

(** ** The world: module variables, [console], collaborators' state *)
Record world := World {
  isLogBoxInstalled : bool;
  originalConsoleError : option func;
  originalConsoleWarn : option func;
  consoleErrorImpl : option func;
  consoleWarnImpl : option func;
  console : gmap string prop;
  logBoxDisabled : bool;             (* the flag behind [LogBoxData.isDisabled()] *)
  warningHandler : option func;      (* the handler held by [RCTLog] *)
  isTesting : bool;                  (* [Platform.isTesting] *)
  trace : list event                 (* calls made so far, oldest first *)
}.

Definition with_trace (t : list event) (w : world) : world :=
  World (isLogBoxInstalled w) (originalConsoleError w) (originalConsoleWarn w)
        (consoleErrorImpl w) (consoleWarnImpl w) (console w) (logBoxDisabled w)
        (warningHandler w) (isTesting w) t.

Definition with_installed (b : bool) (w : world) : world :=
  World b (originalConsoleError w) (originalConsoleWarn w)
        (consoleErrorImpl w) (consoleWarnImpl w) (console w) (logBoxDisabled w)
        (warningHandler w) (isTesting w) (trace w).

Definition with_originals (e wn : option func) (w : world) : world :=
  World (isLogBoxInstalled w) e wn
        (consoleErrorImpl w) (consoleWarnImpl w) (console w) (logBoxDisabled w)
        (warningHandler w) (isTesting w) (trace w).

Definition with_originalConsoleError (e : option func) (w : world) : world :=
  with_originals e (originalConsoleWarn w) w.

Definition with_originalConsoleWarn (wn : option func) (w : world) : world :=
  with_originals (originalConsoleError w) wn w.

Definition with_impls (e wn : option func) (w : world) : world :=
  World (isLogBoxInstalled w) (originalConsoleError w) (originalConsoleWarn w)
        e wn (console w) (logBoxDisabled w)
        (warningHandler w) (isTesting w) (trace w).

Definition with_console (c : gmap string prop) (w : world) : world :=
  World (isLogBoxInstalled w) (originalConsoleError w) (originalConsoleWarn w)
        (consoleErrorImpl w) (consoleWarnImpl w) c (logBoxDisabled w)
        (warningHandler w) (isTesting w) (trace w).

Definition with_disabled (b : bool) (w : world) : world :=
  World (isLogBoxInstalled w) (originalConsoleError w) (originalConsoleWarn w)
        (consoleErrorImpl w) (consoleWarnImpl w) (console w) b
        (warningHandler w) (isTesting w) (trace w).

Definition with_warningHandler (h : option func) (w : world) : world :=
  World (isLogBoxInstalled w) (originalConsoleError w) (originalConsoleWarn w)
        (consoleErrorImpl w) (consoleWarnImpl w) (console w) (logBoxDisabled w)
        h (isTesting w) (trace w).

(** ** The monad: state passing with exceptions *)
Definition M (A : Type) := world -> result A * world.

Definition ret {A} (a : A) : M A := fun w => (Ok a, w).

Definition bind {A B} (m : M A) (k : A -> M B) : M B :=
  fun w => match m w with
           | (Ok a, w') => k a w'
           | (Throw e, w') => (Throw e, w')
           end.

Definition throw {A} (e : exn) : M A := fun w => (Throw e, w).

(** [try { body } catch (err) { handler(err) }] *)
Definition try_catch {A} (body : M A) (handler : exn -> M A) : M A :=
  fun w => match body w with
           | (Ok a, w') => (Ok a, w')
           | (Throw e, w') => handler e w'
           end.

Definition get : M world := fun w => (Ok w, w).
Definition modify (f : world -> world) : M unit := fun w => (Ok tt, f w).
Definition emit (ev : event) : M unit :=
  modify (fun w => with_trace (trace w ++ [ev]) w).

(** A pure collaborator that may throw. *)
Definition lift {A} (r : result A) : M A := fun w => (r, w).

Declare Scope js_scope.
Delimit Scope js_scope with js.
Notation "'let*' x ':=' m 'in' k" := (bind m (fun x => k))
  (at level 10, x name, m at level 100, k at level 200, only parsing) : js_scope.
Notation "m >>> k" := (bind m (fun _ => k))
  (at level 100, k at level 200, right associativity, only parsing) : js_scope.
Local Open Scope js_scope.

Definition state_of {A} (r : result A * world) : world := snd r.
Definition outcome_of {A} (r : result A * world) : result A := fst r.

(** Exceptions the engine itself raises. *)
Definition TypeError_not_a_function : exn := "TypeError: not a function".
Definition RangeError_stack : exn := "RangeError: Maximum call stack size exceeded".

(** ** Collaborators that are consumed as pure functions

    [LogBoxData.isLogBoxErrorMessage], [LogBoxData.isMessageIgnored],
    [LogBoxData.checkWarningFilter] and the two parsers of
    [./Data/parseLogBoxLog] live outside this file: they are taken as an
    interface.  All but the first may throw. *)
Class Collaborators := {
  isLogBoxErrorMessage : value -> bool;
  isMessageIgnored : string -> result bool;
  checkWarningFilter : string -> result FilterResult;
  parseLogBoxLog : list value -> result ParsedLog;
  (* the [message.content] of the interpolated log *)
  parseInterpolation : list value -> result string
}.

(** Modelled from the spec: [LogBoxData.addLog], [LogBoxData.addException],
    [LogBoxData.reportLogBoxError] and [LogBoxData.setDisabled] belong to the
    downstream store, which receives the record; each call is observed in the
    trace, and [setDisabled] sets the flag that [isDisabled()] reads. *)
Module LogBoxData.
Definition addLog (log : LogData) : M unit := emit (AddLog log).
Definition addException (err : ExtendedExceptionData) : M unit :=
  emit (AddException err).
Definition reportLogBoxError (err : exn) : M unit := emit (ReportLogBoxError err).
Definition setDisabled (v : bool) : M unit :=
  modify (with_disabled v) >>> emit (SetDisabled v).
End LogBoxData.

(** Modelled from the spec: [RCTLog.setWarningHandler] stores the handler
    (the "secondary legacy warning hook"). *)
Definition RCTLog_setWarningHandler (h : func) : M unit :=
  modify (with_warningHandler (Some h)) >>> emit (SetWarningHandler h).

(** ** The classifier (lines 150-241) *)

Definition isRCTLogAdviceWarning (args : list value) : bool :=
  match arg0 args with
  | VStr s => startsWith "(ADVICE)" s
  | _ => false
  end.

Definition isWarningModuleWarning (args : list value) : bool :=
  match arg0 args with
  | VStr s => startsWith "Warning: " s
  | _ => false
  end.

(** Lines 214-219. *)
Definition levelOf (filterResult : FilterResult) : Level :=
  if suppressDialog_LEGACY filterResult then warn
  else if forceDialogImmediately filterResult then fatal
  else error.

(** The string held by [args[0]] once [isWarningModuleWarning] has passed
    (line 208 is not reached otherwise). *)
Definition arg0_string (args : list value) : string :=
  match arg0 args with
  | VStr s => s
  | _ => ""
  end.

Section Classifier.
Context `{Collaborators}.

(** How a slot such as [originalConsoleError] is called: passed in, since
    calling a function value and the two channels are mutually recursive. *)
Variable call : option func -> list value -> M unit.

Definition registerWarning_body (args : list value) : M unit :=
  let* text := lift (String_ (arg0 args)) in
  if isLogBoxErrorMessage (VStr text) then
    let* w := get in call (originalConsoleError w) args
  else
    try_catch
      (if negb (isRCTLogAdviceWarning args) then
         let* p := lift (parseLogBoxLog args) in
         let* ignored := lift (isMessageIgnored (content (p_message p))) in
         if negb ignored then
           (let* w := get in call (originalConsoleWarn w) args) >>>
           LogBoxData.addLog {| level := warn;
                                category := p_category p;
                                message := p_message p;
                                componentStack := p_componentStack p |}
         else ret tt
       else ret tt)
      (fun err => LogBoxData.reportLogBoxError err).

Definition registerError_body (args : list value) : M unit :=
  if isLogBoxErrorMessage (arg0 args) then
    let* w := get in call (originalConsoleError w) args
  else
    try_catch
      (if negb (isWarningModuleWarning args) then
         let* w := get in call (originalConsoleError w) args
       else
         let format := replace "Warning: " "" (arg0_string args) in
         let* filterResult := lift (checkWarningFilter format) in
         if suppressCompletely filterResult then ret tt
         else
           let level := levelOf filterResult in
           let args := set_arg0 (VStr ("Warning: " ++ finalFormat filterResult)) args in
           let* p := lift (parseLogBoxLog args) in
           let* ignored := lift (isMessageIgnored (content (p_message p))) in
           if negb ignored then
             let* interpolated := lift (parseInterpolation args) in
             (let* w := get in call (originalConsoleError w) [VStr interpolated]) >>>
             LogBoxData.addLog {| level := level;
                                  category := p_category p;
                                  message := p_message p;
                                  componentStack := p_componentStack p |}
           else ret tt)
      (fun err => LogBoxData.reportLogBoxError err).

End Classifier.

(** ** Calling a function value

    [fuel] bounds the depth of nested calls, as the engine's stack does. *)
Section Calls.
Context `{Collaborators}.

Definition call_slot (call_func : func -> list value -> M unit)
           (slot : option func) (args : list value) : M unit :=
  match slot with
  | Some f => call_func f args
  | None => throw TypeError_not_a_function
  end.

Fixpoint call_func (fuel : nat) (f : func) (args : list value) : M unit :=
  match fuel with
  | O => throw RangeError_stack
  | S n =>
    match f with
    | Native name => emit (HostCall name args)
    | Bound g => call_func n g args
    | Decorated id inner => emit (DecoratorCall id args) >>> call_func n inner args
    | ErrorWrapper => let* w := get in call_slot (call_func n) (consoleErrorImpl w) args
    | WarnWrapper => let* w := get in call_slot (call_func n) (consoleWarnImpl w) args
    | RegisterError => registerError_body (call_slot (call_func n)) args
    | RegisterWarning => registerWarning_body (call_slot (call_func n)) args
    | WarningHandler => registerWarning_body (call_slot (call_func n)) args
    end
  end.

Definition registerWarning (fuel : nat) : list value -> M unit :=
  registerWarning_body (call_slot (call_func fuel)).

Definition registerError (fuel : nat) : list value -> M unit :=
  registerError_body (call_slot (call_func fuel)).

(** [console.<name>(...args)] *)
Definition console_call (fuel : nat) (name : string) (args : list value) : M unit :=
  let* w := get in
  match console w !! name with
  | Some (PMethod f) => call_func fuel f args
  | _ => throw TypeError_not_a_function
  end.

(** [console.<name>.bind(console)] *)
Definition console_bind (name : string) : M func :=
  let* w := get in
  match console w !! name with
  | Some (PMethod f) => ret (Bound f)
  | _ => throw TypeError_not_a_function
  end.

(** [(console: any).disableYellowBox === true]; the accessor's getter is
    [() => LogBoxData.isDisabled()]. *)
Definition disableYellowBox_is_true (w : world) : bool :=
  match console w !! "disableYellowBox" with
  | Some (PData (VBool true)) => true
  | Some PLegacyAccessor => logBoxDisabled w
  | _ => false
  end.

Definition deprecation_notice : string :=
  "console.disableYellowBox has been deprecated and will be removed in a future release. Please use LogBox.ignoreAllLogs(value) instead.".

(** ** The public object (lines 46-148) *)

Definition install (fuel : nat) : M unit :=
  let* w := get in
  if isLogBoxInstalled w then ret tt
  else
    modify (with_installed true) >>>
    emit RequireNativeLogBox >>>
    let* w := get in
    (match originalConsoleError w with
     | None =>
         let* e := console_bind "error" in
         modify (with_originalConsoleError (Some e)) >>>
         let* wn := console_bind "warn" in
         modify (with_originalConsoleWarn (Some wn)) >>>
         modify (fun w => with_console (<["error" := PMethod ErrorWrapper]> (console w)) w) >>>
         modify (fun w => with_console (<["warn" := PMethod WarnWrapper]> (console w)) w)
     | Some _ => ret tt
     end) >>>
    modify (with_impls (Some RegisterError) (Some RegisterWarning)) >>>
    let* w := get in
    (if disableYellowBox_is_true w then
       LogBoxData.setDisabled true >>>
       console_call fuel "warn" [VStr deprecation_notice]
     else ret tt) >>>
    modify (fun w => with_console (<["disableYellowBox" := PLegacyAccessor]> (console w)) w) >>>
    let* w := get in
    (if isTesting w then LogBoxData.setDisabled true else ret tt) >>>
    RCTLog_setWarningHandler WarningHandler.

Definition uninstall : M unit :=
  let* w := get in
  if negb (isLogBoxInstalled w) then ret tt
  else
    modify (with_installed false) >>>
    modify (fun w => with_impls (originalConsoleError w) (originalConsoleWarn w) w) >>>
    modify (fun w => with_console (delete "disableLogBox" (console w)) w).

Definition isInstalled : M bool :=
  let* w := get in ret (isLogBoxInstalled w).

Definition addLog (log : LogData) : M unit :=
  let* w := get in
  if isLogBoxInstalled w then LogBoxData.addLog log else ret tt.

Definition addException (err : ExtendedExceptionData) : M unit :=
  let* w := get in
  if isLogBoxInstalled w then LogBoxData.addException err else ret tt.

End Calls.

(** [frame w w']: [w'] differs from [w] in its trace only, which grew. *)
Definition frame (w w' : world) : Prop :=
  exists evs, w' = with_trace (trace w ++ evs) w.

(** ** Functions that are not this module's own *)

Fixpoint external (f : func) : bool :=
  match f with
  | Native _ => true
  | Bound g => external g
  | Decorated _ g => external g
  | _ => false
  end.

Fixpoint depth (f : func) : nat :=
  match f with
  | Bound g => S (depth g)
  | Decorated _ g => S (depth g)
  | _ => 0
  end.

(** What running an external function shows in the trace. *)
Fixpoint external_events (f : func) (args : list value) : list event :=
  match f with
  | Native name => [HostCall name args]
  | Bound g => external_events g args
  | Decorated id g => DecoratorCall id args :: external_events g args
  | _ => []
  end.

(** The records handed to [LogBoxData.addLog] in a trace, oldest first. *)
Fixpoint logged (t : list event) : list LogData :=
  match t with
  | [] => []
  | AddLog log :: rest => log :: logged rest
  | _ :: rest => logged rest
  end.

(** ** The two channels, seen as one *)

Inductive channel := WarningChannel | ErrorChannel.


Section ChannelDefs.
Context `{Collaborators}.

Definition run_channel (ch : channel) (fuel : nat) : list value -> M unit :=
  match ch with
  | WarningChannel => registerWarning fuel
  | ErrorChannel => registerError fuel
  end.

(** The call gets past the self-report test (lines 162 and 190) and
    enters the [try] block. *)
Definition enters_try (ch : channel) (args : list value) : bool :=
  match ch with
  | WarningChannel =>
      match String_ (arg0 args) with
      | Ok text => negb (isLogBoxErrorMessage (VStr text))
      | Throw _ => false
      end
  | ErrorChannel => negb (isLogBoxErrorMessage (arg0 args))
  end.

(** [raises ch args e]: classifying [args] on channel [ch] reaches a parser,
    the ignore test or the filter lookup, and that collaborator throws [e]. *)
Inductive raises : channel -> list value -> exn -> Prop :=
| raises_warning_parse args e :
    isRCTLogAdviceWarning args = false ->
    parseLogBoxLog args = Throw e ->
    raises WarningChannel args e
| raises_warning_ignore args p e :
    isRCTLogAdviceWarning args = false ->
    parseLogBoxLog args = Ok p ->
    isMessageIgnored (content (p_message p)) = Throw e ->
    raises WarningChannel args e
| raises_error_filter args e :
    isWarningModuleWarning args = true ->
    checkWarningFilter (replace "Warning: " "" (arg0_string args)) = Throw e ->
    raises ErrorChannel args e
| raises_error_parse args fr e :
    isWarningModuleWarning args = true ->
    checkWarningFilter (replace "Warning: " "" (arg0_string args)) = Ok fr ->
    suppressCompletely fr = false ->
    parseLogBoxLog (set_arg0 (VStr ("Warning: " ++ finalFormat fr)) args) = Throw e ->
    raises ErrorChannel args e
| raises_error_ignore args fr p e :
    isWarningModuleWarning args = true ->
    checkWarningFilter (replace "Warning: " "" (arg0_string args)) = Ok fr ->
    suppressCompletely fr = false ->
    parseLogBoxLog (set_arg0 (VStr ("Warning: " ++ finalFormat fr)) args) = Ok p ->
    isMessageIgnored (content (p_message p)) = Throw e ->
    raises ErrorChannel args e
| raises_error_interpolation args fr p e :
    isWarningModuleWarning args = true ->
    checkWarningFilter (replace "Warning: " "" (arg0_string args)) = Ok fr ->
    suppressCompletely fr = false ->
    parseLogBoxLog (set_arg0 (VStr ("Warning: " ++ finalFormat fr)) args) = Ok p ->
    isMessageIgnored (content (p_message p)) = Ok false ->
    parseInterpolation (set_arg0 (VStr ("Warning: " ++ finalFormat fr)) args) = Throw e ->
    raises ErrorChannel args e.

End ChannelDefs.

(** ** Sequences of top-level calls *)

(** What the rest of the program does to the module and to [console]. *)
Inductive op :=
| Install                           (* [LogBox.install()] *)
| Uninstall                         (* [LogBox.uninstall()] *)
| DecorateError (id : nat)          (* another interceptor wraps [console.error] *)
| DecorateWarn (id : nat)           (* another interceptor wraps [console.warn] *)
| ConsoleError (args : list value)  (* [console.error(...args)] *)
| ConsoleWarn (args : list value).  (* [console.warn(...args)] *)

(** [console.<name> = decorate(console.<name>)], the [OtherErrorHandler] of
    the comment at lines 112-115. *)
Definition decorate (name : string) (id : nat) : M unit :=
  let* w := get in
  match console w !! name with
  | Some (PMethod f) =>
      modify (with_console (<[name := PMethod (Decorated id f)]> (console w)))
  | _ => throw TypeError_not_a_function
  end.

Section Runs.
Context `{Collaborators}.

Definition run_op (fuel : nat) (o : op) : M unit :=
  match o with
  | Install => install fuel
  | Uninstall => uninstall
  | DecorateError id => decorate "error" id
  | DecorateWarn id => decorate "warn" id
  | ConsoleError args => console_call fuel "error" args
  | ConsoleWarn args => console_call fuel "warn" args
  end.

(** One top-level call; an exception it throws ends that call only. *)
Definition step (fuel : nat) (o : op) (w : world) : world :=
  state_of (run_op fuel o w).

Definition run (fuel : nat) (ops : list op) (w : world) : world :=
  fold_left (fun w o => step fuel o w) ops w.

End Runs.

Definition is_install (o : op) : bool :=
  match o with Install => true | _ => false end.

(** The two saved references. *)
Definition originals (w : world) : option func * option func :=
  (originalConsoleError w, originalConsoleWarn w).

#[global] Instance func_eq_dec : EqDecision func.
Proof. solve_decision. Defined.

(** The module as loaded, before any call of its functions. *)
Definition module_loaded (w : world) : Prop :=
  isLogBoxInstalled w = false
  /\ originalConsoleError w = None /\ originalConsoleWarn w = None
  /\ consoleErrorImpl w = None /\ consoleWarnImpl w = None.

(** [console.error] and [console.warn] are functions. *)
Definition console_ready (w : world) : Prop :=
  (exists e, console w !! "error" = Some (PMethod e))
  /\ (exists wn, console w !! "warn" = Some (PMethod wn)).

(** Before the first [install]. *)
Definition not_yet_installed (w : world) : Prop :=
  isLogBoxInstalled w = false /\ originals w = (None, None) /\ console_ready w.

(** [over W f]: [f] is the wrapper [W], possibly decorated by later
    interceptors. *)
Fixpoint over (W f : func) : bool :=
  match f with
  | Decorated _ g => bool_decide (f = W) || over W g
  | _ => bool_decide (f = W)
  end.

(** After the first [install]: the originals are saved and the wrappers sit
    on [console], possibly under later decorations. *)
Definition wrapped (w : world) : Prop :=
  originalConsoleError w <> None
  /\ (exists f, console w !! "error" = Some (PMethod f) /\ over ErrorWrapper f = true)
  /\ (exists g, console w !! "warn" = Some (PMethod g) /\ over WarnWrapper g = true).

Section Captures.
Context `{Collaborators}.

(** How many of the calls in [ops] changed a saved original reference. *)
Fixpoint captures (fuel : nat) (ops : list op) (w : world) : nat :=
  match ops with
  | [] => 0
  | o :: rest =>
      let w' := step fuel o w in
      (if decide (originals w' = originals w) then 0 else 1)
      + captures fuel rest w'
  end.

End Captures.

(** The calls made into the downstream store, in a trace. *)
Definition is_store_call (ev : event) : bool :=
  match ev with
  | AddLog _ | AddException _ => true
  | _ => false
  end.

Definition store_calls (t : list event) : list event := List.filter is_store_call t.

(** ** The rest of the public object, and the legacy flag *)

(** [ignoreAllLogs(value)] (lines 129-131); [None] is an absent, [undefined]
    or [null] argument. *)
Definition ignoreAllLogs (value : option bool) : M unit :=
  LogBoxData.setDisabled (match value with None => true | Some v => v end).

Section LegacyFlag.
Context `{Collaborators}.

(** [console.disableYellowBox = v] for a boolean [v]: through the setter of
    lines 88-93 when the accessor is defined, a plain data property
    otherwise. *)
Definition set_disableYellowBox (fuel : nat) (v : bool) : M unit :=
  let* w := get in
  match console w !! "disableYellowBox" with
  | Some PLegacyAccessor =>
      LogBoxData.setDisabled v >>>
      console_call fuel "warn" [VStr deprecation_notice]
  | _ =>
      modify (fun w => with_console
                         (<["disableYellowBox" := PData (VBool v)]> (console w)) w)
  end.

End LegacyFlag.

Definition is_decorate (o : op) : bool :=
  match o with
  | DecorateError _ | DecorateWarn _ => true
  | _ => false
  end.

(** The value of [isLogBoxInstalled] that the last [install]/[uninstall] of a
    sequence asks for, [start] when it has none. *)
Fixpoint last_toggle (ops : list op) (start : bool) : bool :=
  match ops with
  | [] => start
  | Install :: rest => last_toggle rest true
  | Uninstall :: rest => last_toggle rest false
  | _ :: rest => last_toggle rest start
  end.

(** The module before its first [install], with [e] and [wn] on [console]. *)
Definition pristine (e wn : func) (w : world) : Prop :=
  isLogBoxInstalled w = false
  /\ originals w = (None, None)
  /\ console w !! "error" = Some (PMethod e)
  /\ console w !! "warn" = Some (PMethod wn).

(** The module once the first [install] has saved the host functions [e] and
    [wn], with nobody else decorating [console]: wrappers on [console], and
    slots that follow the installed flag. *)
Definition settled (e wn : func) (w : world) : Prop :=
  originals w = (Some (Bound e), Some (Bound wn))
  /\ console w !! "error" = Some (PMethod ErrorWrapper)
  /\ console w !! "warn" = Some (PMethod WarnWrapper)
  /\ consoleErrorImpl w
     = (if isLogBoxInstalled w then Some RegisterError else Some (Bound e))
  /\ consoleWarnImpl w
     = (if isLogBoxInstalled w then Some RegisterWarning else Some (Bound wn)).

(** [only_appends w w']: from [w] to [w'] the installation, [console] and the
    collaborators' state are untouched and the calls made so far are kept. *)
Definition only_appends (w w' : world) : Prop :=
  isLogBoxInstalled w' = isLogBoxInstalled w
  /\ originals w' = originals w
  /\ consoleErrorImpl w' = consoleErrorImpl w
  /\ consoleWarnImpl w' = consoleWarnImpl w
  /\ console w' = console w
  /\ logBoxDisabled w' = logBoxDisabled w
  /\ warningHandler w' = warningHandler w
  /\ exists evs, trace w' = trace w ++ evs.

(** ** A concrete environment, used to run the model *)
Module Sample.

(** [s.includes(sub)] *)
Fixpoint includes (sub s : string) : bool :=
  if String.prefix sub s then true
  else match s with
       | EmptyString => false
       | String _ rest => includes sub rest
       end.

Definition LOGBOX_ERROR_MESSAGE : string :=
  "An error was thrown when attempting to render log messages via LogBox.".

Definition sample_filter (format : string) : result FilterResult :=
  if String.eqb format "both flags" then
    Ok {| finalFormat := format; forceDialogImmediately := true;
          suppressDialog_LEGACY := true; suppressCompletely := false |}
  else if String.eqb format "force only" then
    Ok {| finalFormat := format; forceDialogImmediately := true;
          suppressDialog_LEGACY := false; suppressCompletely := false |}
  else if String.eqb format "filter throws" then
    Throw "filter failed"
  else
    Ok {| finalFormat := format; forceDialogImmediately := false;
          suppressDialog_LEGACY := false; suppressCompletely := false |}.

Definition sample_parse (args : list value) : result ParsedLog :=
  match arg0 args with
  | VStr s => Ok {| p_category := s;
                    p_message := {| content := s; substitutions := [] |};
                    p_componentStack := [] |}
  | _ => Throw "cannot parse"
  end.

#[export] Instance collaborators : Collaborators := {|
  isLogBoxErrorMessage v :=
    match v with VStr s => includes LOGBOX_ERROR_MESSAGE s | _ => false end;
  isMessageIgnored c := Ok (includes "ignore me" c);
  checkWarningFilter := sample_filter;
  parseLogBoxLog := sample_parse;
  parseInterpolation args := String_ (arg0 args)
|}.

(** The module as loaded: nothing installed, the host console in place. *)
Definition fresh : world :=
  {| isLogBoxInstalled := false;
     originalConsoleError := None;
     originalConsoleWarn := None;
     consoleErrorImpl := None;
     consoleWarnImpl := None;
     console := <["error" := PMethod (Native "console.error")]>
                (<["warn" := PMethod (Native "console.warn")]> ∅);
     logBoxDisabled := false;
     warningHandler := None;
     isTesting := false;
     trace := [] |}.

Definition installed : world := state_of (install 8 fresh).

End Sample.


(** A second environment: a filter table that suppresses one format, renames
    another, and leaves the rest as they are. *)
Module Filtered.

Definition table (format : string) : result FilterResult :=
  if String.eqb format "noisy" then
    Ok {| finalFormat := format; forceDialogImmediately := false;
          suppressDialog_LEGACY := false; suppressCompletely := true |}
  else if String.eqb format "old name" then
    Ok {| finalFormat := "new name"; forceDialogImmediately := false;
          suppressDialog_LEGACY := true; suppressCompletely := false |}
  else
    Ok {| finalFormat := format; forceDialogImmediately := false;
          suppressDialog_LEGACY := false; suppressCompletely := false |}.

#[export] Instance collaborators : Collaborators := {|
  isLogBoxErrorMessage v :=
    match v with
    | VStr s => Sample.includes Sample.LOGBOX_ERROR_MESSAGE s
    | _ => false
    end;
  isMessageIgnored c := Ok (Sample.includes "ignore me" c);
  checkWarningFilter := table;
  parseLogBoxLog := Sample.sample_parse;
  parseInterpolation args := String_ (arg0 args)
|}.

(** A loaded module in a testing environment. *)
Definition testing : world :=
  {| isLogBoxInstalled := false;
     originalConsoleError := None;
     originalConsoleWarn := None;
     consoleErrorImpl := None;
     consoleWarnImpl := None;
     console := <["error" := PMethod (Native "console.error")]>
                (<["warn" := PMethod (Native "console.warn")]> ∅);
     logBoxDisabled := false;
     warningHandler := None;
     isTesting := true;
     trace := [] |}.

(** A loaded module whose [console] carries the legacy flag, set. *)
Definition flagged : world :=
  with_console (<["disableYellowBox" := PData (VBool true)]> (console Sample.fresh))
               Sample.fresh.

(** A loaded module whose [console] has lost its [error] function. *)
Definition broken : world :=
  with_console (<["error" := PData VUndefined]> (console Sample.fresh)) Sample.fresh.

End Filtered.

(** * Properties *)

(** ** Bookkeeping on worlds *)

Lemma with_trace_same w : with_trace (trace w) w = w.
Proof. by destruct w. Qed.

Lemma with_trace_twice t t' w : with_trace t (with_trace t' w) = with_trace t w.
Proof. by destruct w. Qed.

Lemma trace_with_trace t w : trace (with_trace t w) = t.
Proof. by destruct w. Qed.

Lemma frame_refl w : frame w w.
Proof. exists []. by rewrite app_nil_r, with_trace_same. Qed.

Lemma frame_trans w1 w2 w3 : frame w1 w2 -> frame w2 w3 -> frame w1 w3.
Proof.
  intros [e1 ->] [e2 ->]. exists (e1 ++ e2).
  by rewrite trace_with_trace, with_trace_twice, app_assoc.
Qed.

Lemma frame_emit ev w : frame w (state_of (emit ev w)).
Proof. by exists [ev]. Qed.

Section CallLemmas.
Context `{Collaborators}.

Lemma call_external f : forall fuel args w,
  external f = true -> depth f < fuel ->
  call_func fuel f args w = (Ok tt, with_trace (trace w ++ external_events f args) w).
Proof.
  induction f as [name | g IH | id g IH | | | | | ]; intros fuel args w Hext Hfuel;
    try discriminate; destruct fuel as [|n]; try lia; simpl in *.
  - reflexivity.
  - apply IH; [done | lia].
  - unfold bind, emit, modify. rewrite IH by (done || lia).
    by rewrite trace_with_trace, with_trace_twice, <- app_assoc.
Qed.

Lemma call_slot_external fuel f args w :
  external f = true -> depth f < fuel ->
  call_slot (call_func fuel) (Some f) args w
  = (Ok tt, with_trace (trace w ++ external_events f args) w).
Proof. apply call_external. Qed.

(** Both channels only add to the trace, whatever the callee does, as long
    as the callee itself only adds to the trace. *)
Section Bodies.
Variable call : option func -> list value -> M unit.
Hypothesis call_frame : forall slot args w, frame w (state_of (call slot args w)).

Lemma registerWarning_body_frame args w :
  frame w (state_of (registerWarning_body call args w)).
Proof.
  unfold registerWarning_body, bind at 1. unfold lift at 1.
  destruct (String_ (arg0 args)) as [text | e]; [| apply frame_refl].
  destruct (isLogBoxErrorMessage _); [apply call_frame |].
  unfold try_catch, bind, lift, get, ret, LogBoxData.addLog,
    LogBoxData.reportLogBoxError.
  destruct (isRCTLogAdviceWarning args); simpl; [apply frame_refl |].
  destruct (parseLogBoxLog args) as [p | e]; [| apply frame_emit].
  destruct (isMessageIgnored _) as [[|] | e]; simpl;
    [apply frame_refl | | apply frame_emit].
  pose proof (call_frame (originalConsoleWarn w) args w) as Hc.
  destruct (call (originalConsoleWarn w) args w) as [[[] | e] w1]; simpl in *;
    (eapply frame_trans; [exact Hc | apply frame_emit]).
Qed.

Lemma registerError_body_frame args w :
  frame w (state_of (registerError_body call args w)).
Proof.
  unfold registerError_body.
  destruct (isLogBoxErrorMessage _); [apply call_frame |].
  unfold try_catch, bind, lift, get, ret, LogBoxData.addLog,
    LogBoxData.reportLogBoxError.
  destruct (isWarningModuleWarning args); simpl.
  - destruct (checkWarningFilter _) as [fr | e]; [| apply frame_emit].
    destruct (suppressCompletely fr); [apply frame_refl |].
    destruct (parseLogBoxLog _) as [p | e]; [| apply frame_emit].
    destruct (isMessageIgnored _) as [[|] | e]; simpl;
      [apply frame_refl | | apply frame_emit].
    destruct (parseInterpolation _) as [s | e]; [| apply frame_emit].
    pose proof (call_frame (originalConsoleError w) [VStr s] w) as Hc.
    destruct (call (originalConsoleError w) [VStr s] w) as [[[] | e] w1];
      simpl in *; (eapply frame_trans; [exact Hc | apply frame_emit]).
  - pose proof (call_frame (originalConsoleError w) args w) as Hc.
    destruct (call (originalConsoleError w) args w) as [[[] | e] w1];
      simpl in *; [exact Hc | eapply frame_trans; [exact Hc | apply frame_emit]].
Qed.

(** Outside the self-reporting path nothing escapes the [try]. *)
Lemma registerWarning_body_no_throw args text w :
  String_ (arg0 args) = Ok text ->
  isLogBoxErrorMessage (VStr text) = false ->
  outcome_of (registerWarning_body call args w) = Ok tt.
Proof.
  intros Htext Hself. unfold registerWarning_body, bind at 1. unfold lift at 1.
  rewrite Htext, Hself.
  unfold try_catch, LogBoxData.reportLogBoxError.
  destruct (_ w) as [[[] | e] w1]; reflexivity.
Qed.

Lemma registerError_body_no_throw args w :
  isLogBoxErrorMessage (arg0 args) = false ->
  outcome_of (registerError_body call args w) = Ok tt.
Proof.
  intros Hself. unfold registerError_body. rewrite Hself.
  unfold try_catch, LogBoxData.reportLogBoxError.
  destruct (_ w) as [[[] | e] w1]; reflexivity.
Qed.
End Bodies.

Lemma call_slot_frame (cf : func -> list value -> M unit) :
  (forall f args w, frame w (state_of (cf f args w))) ->
  forall slot args w, frame w (state_of (call_slot cf slot args w)).
Proof. intros Hcf [f |] args w; simpl; [apply Hcf | apply frame_refl]. Qed.

Lemma call_func_frame fuel : forall f args w,
  frame w (state_of (call_func fuel f args w)).
Proof.
  induction fuel as [| n IH]; intros f args w; simpl; [apply frame_refl |].
  pose proof (call_slot_frame _ IH) as Hslot.
  destruct f; simpl.
  - apply frame_emit.
  - apply IH.
  - unfold bind. simpl. eapply frame_trans; [apply frame_emit | apply IH].
  - apply Hslot.
  - apply Hslot.
  - by apply registerError_body_frame.
  - by apply registerWarning_body_frame.
  - by apply registerWarning_body_frame.
Qed.

Lemma console_call_frame fuel name args w :
  frame w (state_of (console_call fuel name args w)).
Proof.
  unfold console_call, bind, get.
  destruct (console w !! name) as [[f | v |] |]; simpl;
    try apply frame_refl. apply call_func_frame.
Qed.

End CallLemmas.

(** ** The classifier *)

Lemma logged_app t1 t2 : logged (t1 ++ t2) = logged t1 ++ logged t2.
Proof.
  induction t1 as [| ev t1 IH]; simpl; [done |].
  destruct ev; simpl; by rewrite ?IH.
Qed.

Lemma logged_external f args : logged (external_events f args) = [].
Proof. induction f; simpl; auto. Qed.

Lemma levelOf_fatal fr :
  levelOf fr = fatal <->
  forceDialogImmediately fr = true /\ suppressDialog_LEGACY fr = false.
Proof.
  unfold levelOf.
  destruct (suppressDialog_LEGACY fr), (forceDialogImmediately fr); split;
    (intros [? ?] || intros ?); (done || split; done).
Qed.

Section ClassifierFacts.
Context `{Collaborators}.

(** The self-reporting path of the warning channel is one call of
    [originalConsoleError]. *)
Lemma registerWarning_self_report fuel args text w :
  String_ (arg0 args) = Ok text ->
  isLogBoxErrorMessage (VStr text) = true ->
  registerWarning fuel args w
  = call_slot (call_func fuel) (originalConsoleError w) args w.
Proof.
  intros Htext Hself. unfold registerWarning, registerWarning_body, bind, lift.
  by rewrite Htext, Hself.
Qed.

(** What a wrapped warning that is neither suppressed nor ignored does. *)
Lemma registerError_wrapped fuel args w fr p s e :
  isLogBoxErrorMessage (arg0 args) = false ->
  isWarningModuleWarning args = true ->
  checkWarningFilter (replace "Warning: " "" (arg0_string args)) = Ok fr ->
  suppressCompletely fr = false ->
  parseLogBoxLog (set_arg0 (VStr ("Warning: " ++ finalFormat fr)) args) = Ok p ->
  isMessageIgnored (content (p_message p)) = Ok false ->
  parseInterpolation (set_arg0 (VStr ("Warning: " ++ finalFormat fr)) args) = Ok s ->
  originalConsoleError w = Some e -> external e = true -> depth e < fuel ->
  registerError fuel args w
  = (Ok tt,
     with_trace (trace w ++ external_events e [VStr s]
                 ++ [AddLog {| level := levelOf fr;
                               category := p_category p;
                               message := p_message p;
                               componentStack := p_componentStack p |}]) w).
Proof.
  intros Hself Hwarn Hfilter Hsupp Hparse Hign Hinterp Horig Hext Hfuel.
  unfold registerError, registerError_body.
  rewrite Hself. unfold try_catch, bind, lift, get.
  rewrite Hwarn. simpl. rewrite Hfilter, Hsupp, Hparse, Hign. simpl.
  rewrite Hinterp, Horig, call_slot_external by done.
  unfold LogBoxData.addLog, emit, modify.
  by rewrite trace_with_trace, with_trace_twice, <- app_assoc.
Qed.
End ClassifierFacts.

(** C1, as amended.  For an error call whose first argument starts with
    ["Warning: "] and whose format-string lookup yields a FilterResult with
    both [forceDialogImmediately] and [suppressDialog_LEGACY] set, the record
    emitted by the error channel (the message being neither suppressed nor
    ignored) has level [warn]: line 215 tests [suppressDialog_LEGACY] first
    and the test of [forceDialogImmediately] is its [else] branch. *)
Theorem C1_both_flags_level_warn `{Collaborators} fuel args w fr p s e :
  isLogBoxErrorMessage (arg0 args) = false ->
  isWarningModuleWarning args = true ->
  checkWarningFilter (replace "Warning: " "" (arg0_string args)) = Ok fr ->
  forceDialogImmediately fr = true ->
  suppressDialog_LEGACY fr = true ->
  suppressCompletely fr = false ->
  parseLogBoxLog (set_arg0 (VStr ("Warning: " ++ finalFormat fr)) args) = Ok p ->
  isMessageIgnored (content (p_message p)) = Ok false ->
  parseInterpolation (set_arg0 (VStr ("Warning: " ++ finalFormat fr)) args) = Ok s ->
  originalConsoleError w = Some e -> external e = true -> depth e < fuel ->
  registerError fuel args w
  = (Ok tt,
     with_trace (trace w ++ external_events e [VStr s]
                 ++ [AddLog {| level := warn;
                               category := p_category p;
                               message := p_message p;
                               componentStack := p_componentStack p |}]) w).
Proof.
  intros Hself Hwarn Hfilter Hforce Hlegacy Hsupp Hparse Hign Hinterp Horig Hext Hfuel.
  rewrite (registerError_wrapped fuel args w fr p s e) by done.
  unfold levelOf. by rewrite Hlegacy.
Qed.

Lemma C1_both_flags_level_warn_witness :
  @registerError Sample.collaborators 8 [VStr "Warning: both flags"] Sample.installed
  = (Ok tt,
     with_trace
       (trace Sample.installed
        ++ [HostCall "console.error" [VStr "Warning: both flags"];
            AddLog {| level := warn;
                      category := "Warning: both flags";
                      message := {| content := "Warning: both flags";
                                    substitutions := [] |};
                      componentStack := [] |}])
       Sample.installed).
Proof.
  apply (@C1_both_flags_level_warn Sample.collaborators 8
           [VStr "Warning: both flags"] Sample.installed
           {| finalFormat := "both flags"; forceDialogImmediately := true;
              suppressDialog_LEGACY := true; suppressCompletely := false |}
           {| p_category := "Warning: both flags";
              p_message := {| content := "Warning: both flags";
                              substitutions := [] |};
              p_componentStack := [] |}
           "Warning: both flags" (Bound (Native "console.error")));
    try (vm_compute; reflexivity).
  simpl. lia.
Defined.

(** C1, as stated, fails: with both flags set the emitted record is a
    [warn], not a [fatal]. *)
Lemma C1_both_flags_not_fatal :
  let args := [VStr "Warning: both flags"] in
  let after := state_of (@registerError Sample.collaborators 8 args Sample.installed) in
  (exists fr,
      Sample.sample_filter (replace "Warning: " "" (arg0_string args)) = Ok fr
      /\ forceDialogImmediately fr = true /\ suppressDialog_LEGACY fr = true)
  /\ map level (logged (trace after)) = [warn]
  /\ ~ Forall (fun log => level log = fatal) (logged (trace after)).
Proof.
  split; [| split].
  - eexists. split; [vm_compute; reflexivity | split; reflexivity].
  - vm_compute. reflexivity.
  - intros Hall. vm_compute in Hall. inversion Hall as [| log rest Hlevel _].
    discriminate Hlevel.
Qed.

(** C2.  The self-reporting path of the warning channel calls
    [originalConsoleError] (line 163), so the arguments reach the original
    error channel and the original warn channel is never invoked. *)
Theorem C2_self_report_warning_reaches_error_channel :
  let args := [VStr Sample.LOGBOX_ERROR_MESSAGE] in
  let after := state_of (@registerWarning Sample.collaborators 8 args Sample.installed) in
  String_ (arg0 args) = Ok Sample.LOGBOX_ERROR_MESSAGE
  /\ @isLogBoxErrorMessage Sample.collaborators (VStr Sample.LOGBOX_ERROR_MESSAGE) = true
  /\ originalConsoleError Sample.installed = Some (Bound (Native "console.error"))
  /\ originalConsoleWarn Sample.installed = Some (Bound (Native "console.warn"))
  /\ trace after = trace Sample.installed ++ [HostCall "console.error" args]
  /\ ~ In (HostCall "console.warn" args) (trace after)
  /\ logged (trace after) = [].
Proof.
  repeat split; try (vm_compute; reflexivity).
  intros Hin. vm_compute in Hin.
  repeat (destruct Hin as [Hin | Hin]; [discriminate Hin |]). exact Hin.
Qed.

(** C3, as amended.  For a warning call whose first argument is a string
    starting with ["(ADVICE)"] and which is not a self-reporting message, the
    warning channel produces no record and makes no call at all: the guard
    of line 168 encloses the pass-through of line 173 too, so the original
    warn channel is not invoked. *)
Theorem C3_advice_warning_has_no_effect `{Collaborators} fuel args s w :
  arg0 args = VStr s ->
  startsWith "(ADVICE)" s = true ->
  isLogBoxErrorMessage (VStr s) = false ->
  registerWarning fuel args w = (Ok tt, w).
Proof.
  intros Harg Hadvice Hself.
  unfold registerWarning, registerWarning_body, bind, lift.
  rewrite Harg. simpl. rewrite Hself.
  unfold try_catch, isRCTLogAdviceWarning. rewrite Harg, Hadvice. reflexivity.
Qed.

Lemma C3_advice_warning_has_no_effect_witness :
  @registerWarning Sample.collaborators 8 [VStr "(ADVICE) use the new API"]
                   Sample.installed
  = (Ok tt, Sample.installed).
Proof.
  apply (@C3_advice_warning_has_no_effect Sample.collaborators 8
           [VStr "(ADVICE) use the new API"] "(ADVICE) use the new API"
           Sample.installed);
    vm_compute; reflexivity.
Defined.

(** C3, as stated, fails: the original warn channel is not invoked. *)
Lemma C3_advice_warning_not_passed_through :
  let args := [VStr "(ADVICE) use the new API"] in
  let after := state_of (@registerWarning Sample.collaborators 8 args Sample.installed) in
  isRCTLogAdviceWarning args = true
  /\ @isLogBoxErrorMessage Sample.collaborators (arg0 args) = false
  /\ originalConsoleWarn Sample.installed = Some (Bound (Native "console.warn"))
  /\ ~ In (HostCall "console.warn" args) (trace after).
Proof.
  repeat split; try (vm_compute; reflexivity).
  intros Hin. vm_compute in Hin.
  repeat (destruct Hin as [Hin | Hin]; [discriminate Hin |]). exact Hin.
Qed.

(** C10.  An error call whose first argument starts with ["Warning: "],
    which is not self-reporting and not suppressed completely, and whose
    parsed message content is ignored, is dropped: no call of the original
    error channel, no record, the world is unchanged. *)
Theorem C10_ignored_wrapped_warning_is_dropped `{Collaborators} fuel args s w fr p :
  arg0 args = VStr s ->
  startsWith "Warning: " s = true ->
  isLogBoxErrorMessage (arg0 args) = false ->
  checkWarningFilter (replace "Warning: " "" s) = Ok fr ->
  suppressCompletely fr = false ->
  parseLogBoxLog (set_arg0 (VStr ("Warning: " ++ finalFormat fr)) args) = Ok p ->
  isMessageIgnored (content (p_message p)) = Ok true ->
  registerError fuel args w = (Ok tt, w).
Proof.
  intros Harg Hprefix Hself Hfilter Hsupp Hparse Hign.
  unfold registerError, registerError_body. rewrite Hself.
  unfold try_catch, bind, lift, isWarningModuleWarning, arg0_string.
  rewrite Harg, Hprefix. simpl. rewrite Hfilter, Hsupp, Hparse, Hign. reflexivity.
Qed.

Lemma C10_ignored_wrapped_warning_is_dropped_witness :
  @registerError Sample.collaborators 8 [VStr "Warning: please ignore me"]
                 Sample.installed
  = (Ok tt, Sample.installed).
Proof.
  apply (@C10_ignored_wrapped_warning_is_dropped Sample.collaborators 8
           [VStr "Warning: please ignore me"] "Warning: please ignore me"
           Sample.installed
           {| finalFormat := "please ignore me"; forceDialogImmediately := false;
              suppressDialog_LEGACY := false; suppressCompletely := false |}
           {| p_category := "Warning: please ignore me";
              p_message := {| content := "Warning: please ignore me";
                              substitutions := [] |};
              p_componentStack := [] |});
    vm_compute; reflexivity.
Defined.

(** ** Exceptions raised while classifying *)

Section Channels.
Context `{Collaborators}.

(** Whatever happens inside the [try], the caller sees a normal return. *)
Lemma channel_never_throws ch fuel args w :
  enters_try ch args = true ->
  outcome_of (run_channel ch fuel args w) = Ok tt.
Proof.
  destruct ch; simpl; intros Henters.
  - destruct (String_ (arg0 args)) as [text | e] eqn:Htext; [| discriminate].
    apply negb_true_iff in Henters.
    by eapply registerWarning_body_no_throw.
  - apply negb_true_iff in Henters. by apply registerError_body_no_throw.
Qed.

End Channels.

(** C7.  An exception raised while classifying a call, by a parser, the
    ignore test or the filter lookup, on either channel, is caught: the
    channel returns normally to its caller and its only effect is one call
    of [LogBoxData.reportLogBoxError] with that exception. *)
Theorem C7_classification_exception_is_reported `{Collaborators} ch fuel args w e :
  enters_try ch args = true ->
  raises ch args e ->
  run_channel ch fuel args w
  = (Ok tt, with_trace (trace w ++ [ReportLogBoxError e]) w).
Proof.
  intros Henters Hraises.
  inversion Hraises; subst; simpl in Henters |- *;
    unfold registerWarning, registerWarning_body, registerError, registerError_body,
      bind, lift;
    [destruct (String_ (arg0 args)) as [text | e'] eqn:Htext; [| discriminate] ..
    | | | | ];
    apply negb_true_iff in Henters; rewrite Henters; unfold try_catch;
    repeat match goal with
           | Heq : ?x = _ |- context [?x] => rewrite Heq; simpl
           end;
    reflexivity.
Qed.

Lemma C7_classification_exception_is_reported_witness :
  @run_channel Sample.collaborators ErrorChannel 8
     [VStr "Warning: filter throws"] Sample.installed
  = (Ok tt,
     with_trace (trace Sample.installed ++ [ReportLogBoxError "filter failed"])
                Sample.installed).
Proof.
  apply (@C7_classification_exception_is_reported Sample.collaborators
           ErrorChannel 8 [VStr "Warning: filter throws"] Sample.installed
           "filter failed").
  - vm_compute. reflexivity.
  - apply raises_error_filter; vm_compute; reflexivity.
Defined.

(** ** Installation *)

(** Unfolds one run of the monad down to matches on the world. *)
Ltac run_monad :=
  unfold state_of, outcome_of, bind, get, ret, modify, emit, lift, throw,
    LogBoxData.setDisabled, LogBoxData.addLog, LogBoxData.addException,
    RCTLog_setWarningHandler in *; simpl in *.

(** Replaces the state after a [console.<name>(...)] by the state before it
    with a longer trace. *)
Ltac frame_console_call :=
  match goal with
  | |- context [console_call ?fuel ?name ?args ?w] =>
      let evs := fresh "evs" in
      let Hevs := fresh "Hevs" in
      let r := fresh "r" in
      let w' := fresh "w'" in
      destruct (console_call_frame fuel name args w) as [evs Hevs];
      destruct (console_call fuel name args w) as [r w'];
      unfold state_of in Hevs; simpl in Hevs; subst w'; destruct r as [[] | ?]
  end.

Section InstallLemmas.
Context `{Collaborators}.

Lemma install_when_installed fuel w :
  isLogBoxInstalled w = true -> install fuel w = (Ok tt, w).
Proof. intros Hin. unfold install, bind, get. by rewrite Hin. Qed.

Lemma uninstall_when_uninstalled w :
  isLogBoxInstalled w = false -> uninstall w = (Ok tt, w).
Proof. intros Hin. unfold uninstall, bind, get. by rewrite Hin. Qed.

Lemma install_sets_flag fuel w :
  isLogBoxInstalled (state_of (install fuel w)) = true.
Proof.
  destruct (isLogBoxInstalled w) eqn:Hin.
  { by rewrite install_when_installed. }
  unfold install, console_bind. run_monad. rewrite Hin. simpl.
  destruct (originalConsoleError w); simpl.
  - destruct (disableYellowBox_is_true _); simpl.
    + frame_console_call; simpl.
      * destruct (isTesting w); reflexivity.
      * reflexivity.
    + destruct (isTesting w); reflexivity.
  - destruct (console w !! "error") as [[e | v |] |]; simpl; try reflexivity.
    destruct (console w !! "warn") as [[wn | v |] |]; simpl; try reflexivity.
    destruct (disableYellowBox_is_true _); simpl.
    + frame_console_call; simpl.
      * destruct (isTesting w); reflexivity.
      * reflexivity.
    + destruct (isTesting w); reflexivity.
Qed.

Lemma uninstall_clears_flag w :
  isLogBoxInstalled (state_of (uninstall w)) = false.
Proof.
  destruct (isLogBoxInstalled w) eqn:Hin.
  - unfold uninstall. run_monad. by rewrite Hin.
  - by rewrite uninstall_when_uninstalled.
Qed.

End InstallLemmas.

(** Splits [install] on an uninstalled world into its paths: originals
    already saved or not, [console.error]/[console.warn] functions or not,
    legacy flag set or not, testing or not. *)
Ltac install_paths w Hin :=
  unfold install, console_bind; run_monad; rewrite ?Hin; simpl;
  destruct (originalConsoleError w) eqn:?; simpl;
  [| destruct (console w !! "error") as [[? | ? |] |] eqn:?; simpl;
     [destruct (console w !! "warn") as [[? | ? |] |] eqn:?; simpl | ..]];
  try (destruct (disableYellowBox_is_true _); simpl;
       [frame_console_call; simpl |]);
  try (destruct (isTesting w); simpl).

Section InstallOnce.
Context `{Collaborators}.

(** Once [originalConsoleError] is set, [install] leaves both saved
    references and both [console] channels alone. *)
Lemma install_keeps_originals fuel w :
  originalConsoleError w <> None ->
  originals (state_of (install fuel w)) = originals w
  /\ console (state_of (install fuel w)) !! "error" = console w !! "error"
  /\ console (state_of (install fuel w)) !! "warn" = console w !! "warn".
Proof.
  intros Hsaved.
  destruct (isLogBoxInstalled w) eqn:Hin.
  { by rewrite install_when_installed. }
  install_paths w Hin; try congruence;
    unfold originals; simpl; rewrite ?lookup_insert_ne by done; done.
Qed.

(** The first [install] saves the functions then on [console], bound, and
    puts the two wrappers in their place. *)
Lemma install_first fuel w e wn :
  isLogBoxInstalled w = false ->
  originalConsoleError w = None ->
  console w !! "error" = Some (PMethod e) ->
  console w !! "warn" = Some (PMethod wn) ->
  originals (state_of (install fuel w)) = (Some (Bound e), Some (Bound wn))
  /\ console (state_of (install fuel w)) !! "error" = Some (PMethod ErrorWrapper)
  /\ console (state_of (install fuel w)) !! "warn" = Some (PMethod WarnWrapper).
Proof.
  intros Hin Hnone Herr Hwarn.
  install_paths w Hin; try congruence;
    unfold originals; simpl;
    simplify_eq;
    repeat split; try done;
    repeat (rewrite lookup_insert_eq || rewrite lookup_insert_ne by done); done.
Qed.

Lemma uninstall_keeps_console_channels w name :
  name <> "disableLogBox" ->
  console (state_of (uninstall w)) !! name = console w !! name.
Proof.
  intros Hname. unfold uninstall. run_monad.
  destruct (isLogBoxInstalled w); simpl; [| done].
  by rewrite lookup_delete_ne.
Qed.

Lemma uninstall_keeps_originals w :
  originals (state_of (uninstall w)) = originals w.
Proof.
  unfold uninstall. run_monad. by destruct (isLogBoxInstalled w).
Qed.

Lemma uninstall_repoints w :
  isLogBoxInstalled w = true ->
  consoleErrorImpl (state_of (uninstall w)) = originalConsoleError w
  /\ consoleWarnImpl (state_of (uninstall w)) = originalConsoleWarn w.
Proof. intros Hin. unfold uninstall. run_monad. by rewrite Hin. Qed.

Lemma decorate_state name id w :
  state_of (decorate name id w)
  = match console w !! name with
    | Some (PMethod f) => with_console (<[name := PMethod (Decorated id f)]> (console w)) w
    | _ => w
    end.
Proof.
  unfold decorate. run_monad.
  by destruct (console w !! name) as [[? | ? |] |].
Qed.

Lemma frame_fields w w' :
  frame w w' ->
  isLogBoxInstalled w' = isLogBoxInstalled w
  /\ originals w' = originals w
  /\ consoleErrorImpl w' = consoleErrorImpl w
  /\ consoleWarnImpl w' = consoleWarnImpl w
  /\ console w' = console w.
Proof. intros [evs ->]. by destruct w. Qed.

End InstallOnce.

(** ** Sequences of calls *)

Section Sequences.
Context `{Collaborators}.

Lemma module_loaded_not_yet_installed w :
  module_loaded w -> console_ready w -> not_yet_installed w.
Proof.
  intros (Hin & He & Hw & _) Hready. unfold not_yet_installed, originals.
  by rewrite He, Hw.
Qed.

Lemma step_before_install fuel o w :
  is_install o = false ->
  not_yet_installed w ->
  not_yet_installed (step fuel o w).
Proof.
  intros Hop (Hin & Horig & (e & He) & (wn & Hwn)).
  destruct o as [| | id | id | args | args]; try discriminate; unfold step; simpl.
  - rewrite uninstall_when_uninstalled by done. by repeat split; eauto.
  - rewrite decorate_state, He. repeat split; simpl; try done.
    + exists (Decorated id e). by rewrite lookup_insert_eq.
    + exists wn. by rewrite lookup_insert_ne.
  - rewrite decorate_state, Hwn. repeat split; simpl; try done.
    + exists e. by rewrite lookup_insert_ne.
    + exists (Decorated id wn). by rewrite lookup_insert_eq.
  - destruct (frame_fields _ _ (console_call_frame fuel "error" args w))
      as (Hi & Ho & _ & _ & Hc).
    unfold not_yet_installed, console_ready. rewrite Hi, Ho, Hc. by eauto 8.
  - destruct (frame_fields _ _ (console_call_frame fuel "warn" args w))
      as (Hi & Ho & _ & _ & Hc).
    unfold not_yet_installed, console_ready. rewrite Hi, Ho, Hc. by eauto 8.
Qed.

(** No call re-captures: once [originalConsoleError] is set, every call
    leaves both saved references as they are. *)
Lemma step_keeps_originals fuel o w :
  originalConsoleError w <> None ->
  originals (step fuel o w) = originals w.
Proof.
  intros Hsaved.
  destruct o as [| | id | id | args | args]; unfold step; simpl.
  - by apply install_keeps_originals.
  - apply uninstall_keeps_originals.
  - rewrite decorate_state. by destruct (console w !! "error") as [[? | ? |] |].
  - rewrite decorate_state. by destruct (console w !! "warn") as [[? | ? |] |].
  - by destruct (frame_fields _ _ (console_call_frame fuel "error" args w))
      as (_ & Ho & _).
  - by destruct (frame_fields _ _ (console_call_frame fuel "warn" args w))
      as (_ & Ho & _).
Qed.

Lemma originals_saved w w' :
  originals w' = originals w ->
  originalConsoleError w <> None -> originalConsoleError w' <> None.
Proof. unfold originals. intros Heq. by inversion Heq as [[He Hw]]; rewrite He. Qed.

Lemma run_keeps_originals fuel ops : forall w,
  originalConsoleError w <> None ->
  originals (run fuel ops w) = originals w /\ captures fuel ops w = 0.
Proof.
  induction ops as [| o rest IH]; intros w Hsaved; simpl; [done |].
  pose proof (step_keeps_originals fuel o w Hsaved) as Hstep.
  destruct (IH (step fuel o w)) as [Hrun Hcap].
  { by eapply originals_saved. }
  unfold run in *. simpl. rewrite Hrun, Hcap, Hstep.
  by rewrite decide_True.
Qed.

Lemma step_wrapped fuel o w : wrapped w -> wrapped (step fuel o w).
Proof.
  intros (Hsaved & (f & Hf & Hover_f) & (g & Hg & Hover_g)).
  split.
  { eapply originals_saved; [by apply step_keeps_originals | done]. }
  destruct o as [| | id | id | args | args]; unfold step; simpl.
  - destruct (install_keeps_originals fuel w Hsaved) as (_ & -> & ->). split; eauto.
  - rewrite !uninstall_keeps_console_channels by done. split; eauto.
  - rewrite decorate_state, Hf. simpl. split.
    + exists (Decorated id f). rewrite lookup_insert_eq. split; [done |].
      cbn [over]. rewrite Hover_f. apply orb_true_r.
    + exists g. by rewrite lookup_insert_ne.
  - rewrite decorate_state, Hg. simpl. split.
    + exists f. by rewrite lookup_insert_ne.
    + exists (Decorated id g). rewrite lookup_insert_eq. split; [done |].
      cbn [over]. rewrite Hover_g. apply orb_true_r.
  - destruct (frame_fields _ _ (console_call_frame fuel "error" args w))
      as (_ & _ & _ & _ & ->). split; eauto.
  - destruct (frame_fields _ _ (console_call_frame fuel "warn" args w))
      as (_ & _ & _ & _ & ->). split; eauto.
Qed.

Lemma run_wrapped fuel ops : forall w, wrapped w -> wrapped (run fuel ops w).
Proof.
  induction ops as [| o rest IH]; intros w Hw; simpl; [done |].
  apply IH. by apply step_wrapped.
Qed.

Lemma first_install_wraps fuel w :
  not_yet_installed w -> wrapped (step fuel Install w).
Proof.
  intros (Hin & Horig & (e & He) & (wn & Hwn)).
  unfold originals in Horig. inversion Horig as [[Hnone Hnone']].
  destruct (install_first fuel w e wn Hin Hnone He Hwn) as (Ho & Hce & Hcw).
  unfold originals in Ho. inversion Ho as [[Hoe How]].
  unfold wrapped, step. simpl. rewrite Hoe, Hce, Hcw.
  repeat split; [done | by exists ErrorWrapper | by exists WarnWrapper].
Qed.

Lemma run_app fuel ops1 ops2 w :
  run fuel (ops1 ++ ops2) w = run fuel ops2 (run fuel ops1 w).
Proof. apply fold_left_app. Qed.

Lemma run_before_install fuel ops : forall w,
  existsb is_install ops = false ->
  not_yet_installed w ->
  not_yet_installed (run fuel ops w) /\ captures fuel ops w = 0.
Proof.
  induction ops as [| o rest IH]; intros w Hnone Hw; simpl in *; [done |].
  apply orb_false_elim in Hnone as [Ho Hrest].
  pose proof (step_before_install fuel o w Ho Hw) as Hstep.
  destruct (IH _ Hrest Hstep) as [Hrun Hcap].
  split; [exact Hrun |]. rewrite Hcap.
  destruct Hw as (_ & -> & _), Hstep as (_ & -> & _). by rewrite decide_True.
Qed.

End Sequences.

Section SequenceFacts.
Context `{Collaborators}.

Lemma captures_count fuel ops : forall w,
  not_yet_installed w ->
  captures fuel ops w = if existsb is_install ops then 1 else 0.
Proof.
  induction ops as [| o rest IH]; intros w Hw; [done |].
  cbn [captures existsb]. destruct (is_install o) eqn:Ho; cbn [orb].
  - destruct o; try discriminate.
    destruct (first_install_wraps fuel w Hw) as (Hsaved & _).
    destruct (run_keeps_originals fuel rest _ Hsaved) as [_ ->].
    rewrite decide_False; [done |].
    destruct Hw as (_ & -> & _). unfold originals. intros Heq.
    by inversion Heq.
  - pose proof (step_before_install fuel o w Ho Hw) as Hstep.
    rewrite (IH _ Hstep).
    destruct Hw as (_ & -> & _), Hstep as (_ & -> & _). by rewrite decide_True.
Qed.

Lemma run_installs_wrapped fuel ops : forall w,
  not_yet_installed w ->
  existsb is_install ops = true ->
  wrapped (run fuel ops w).
Proof.
  induction ops as [| o rest IH]; intros w Hw Hsome; [discriminate |].
  cbn [existsb] in Hsome. unfold run. cbn [fold_left].
  destruct (is_install o) eqn:Ho.
  - destruct o; try discriminate.
    apply run_wrapped. by apply first_install_wraps.
  - apply IH; [by apply step_before_install | done].
Qed.

End SequenceFacts.

(** C5.  From the module as loaded, over any sequence of [install] and
    [uninstall] calls (and of logging calls and decorations by other
    interceptors between them), the saved original references change in
    exactly one call if the sequence has an [install] and in none otherwise;
    that call is the first [install], which saves the functions then on
    [console], and they are what the module holds at the end. *)
Theorem C5_originals_captured_once `{Collaborators} fuel ops w :
  module_loaded w ->
  console_ready w ->
  captures fuel ops w = (if existsb is_install ops then 1 else 0)
  /\ (forall ops1 ops2,
         ops = ops1 ++ Install :: ops2 ->
         existsb is_install ops1 = false ->
         exists e wn,
           console (run fuel ops1 w) !! "error" = Some (PMethod e)
           /\ console (run fuel ops1 w) !! "warn" = Some (PMethod wn)
           /\ originals (run fuel ops w) = (Some (Bound e), Some (Bound wn))).
Proof.
  intros Hloaded Hready.
  pose proof (module_loaded_not_yet_installed w Hloaded Hready) as Hw.
  split; [by apply captures_count |].
  intros ops1 ops2 -> Hnone.
  destruct (run_before_install fuel ops1 w Hnone Hw) as [Hw1 _].
  set (w1 := run fuel ops1 w) in *.
  destruct Hw1 as (Hin & Horig & (e & He) & (wn & Hwn)).
  exists e, wn. repeat split; try done.
  unfold originals in Horig. inversion Horig as [[Hnone_e Hnone_w]].
  destruct (install_first fuel w1 e wn Hin Hnone_e He Hwn) as (Ho & _).
  rewrite run_app. fold w1. unfold run. cbn [fold_left].
  fold (run fuel ops2 (step fuel Install w1)).
  destruct (run_keeps_originals fuel ops2 (step fuel Install w1)) as [-> _]; [| exact Ho].
  unfold step. simpl. unfold originals in Ho. inversion Ho as [[Hoe How]].
  by rewrite Hoe.
Qed.

Lemma C5_originals_captured_once_witness :
  let ops := [Uninstall; DecorateError 1; Install; ConsoleWarn [VStr "hi"];
              Uninstall; DecorateWarn 2; Install; Install; Uninstall] in
  @captures Sample.collaborators 8 ops Sample.fresh = 1
  /\ originals (@run Sample.collaborators 8 ops Sample.fresh)
     = (Some (Bound (Decorated 1 (Native "console.error"))),
        Some (Bound (Native "console.warn"))).
Proof.
  intros ops.
  assert (Hloaded : module_loaded Sample.fresh) by (repeat split).
  assert (Hready : console_ready Sample.fresh).
  { split; eexists; vm_compute; reflexivity. }
  destruct (@C5_originals_captured_once Sample.collaborators 8 ops Sample.fresh
              Hloaded Hready) as [Hcount Hfirst].
  split; [exact Hcount |].
  destruct (Hfirst [Uninstall; DecorateError 1]
                   [ConsoleWarn [VStr "hi"]; Uninstall; DecorateWarn 2;
                    Install; Install; Uninstall]
                   eq_refl eq_refl) as (e & wn & He & Hwn & Ho).
  vm_compute in He, Hwn. inversion He; inversion Hwn; subst. exact Ho.
Defined.

(** C6.  Once [install] has run, whatever calls follow, [console.error] and
    [console.warn] still hold the wrappers installed at the first [install]
    (under the decorations other interceptors put on top since), and
    [uninstall] does not write to either channel: it only repoints the
    implementation slots the wrappers dispatch through to the saved
    originals. *)
Theorem C6_uninstall_leaves_wrappers_on_console `{Collaborators} fuel ops w :
  module_loaded w ->
  console_ready w ->
  existsb is_install ops = true ->
  let w' := run fuel ops w in
  let w'' := state_of (uninstall w') in
  wrapped w'
  /\ console w'' !! "error" = console w' !! "error"
  /\ console w'' !! "warn" = console w' !! "warn"
  /\ wrapped w''
  /\ consoleErrorImpl w''
     = (if isLogBoxInstalled w' then originalConsoleError w' else consoleErrorImpl w')
  /\ consoleWarnImpl w''
     = (if isLogBoxInstalled w' then originalConsoleWarn w' else consoleWarnImpl w').
Proof.
  intros Hloaded Hready Hsome w' w''.
  pose proof (module_loaded_not_yet_installed w Hloaded Hready) as Hw.
  pose proof (run_installs_wrapped fuel ops w Hw Hsome) as Hwrapped.
  fold w' in Hwrapped.
  split; [exact Hwrapped |].
  split; [by apply uninstall_keeps_console_channels |].
  split; [by apply uninstall_keeps_console_channels |].
  split; [exact (step_wrapped fuel Uninstall w' Hwrapped) |].
  subst w''. destruct (isLogBoxInstalled w') eqn:Hin.
  - by apply uninstall_repoints.
  - by rewrite uninstall_when_uninstalled.
Qed.

Lemma C6_uninstall_leaves_wrappers_on_console_witness :
  let w' := @run Sample.collaborators 8 [Install; DecorateError 7] Sample.fresh in
  let w'' := state_of (uninstall w') in
  console w' !! "error" = Some (PMethod (Decorated 7 ErrorWrapper))
  /\ console w'' !! "error" = Some (PMethod (Decorated 7 ErrorWrapper))
  /\ console w'' !! "warn" = Some (PMethod WarnWrapper)
  /\ consoleErrorImpl w'' = Some (Bound (Native "console.error"))
  /\ consoleWarnImpl w'' = Some (Bound (Native "console.warn")).
Proof.
  intros w' w''.
  assert (Hloaded : module_loaded Sample.fresh) by (repeat split).
  assert (Hready : console_ready Sample.fresh).
  { split; eexists; vm_compute; reflexivity. }
  destruct (@C6_uninstall_leaves_wrappers_on_console Sample.collaborators 8
              [Install; DecorateError 7] Sample.fresh Hloaded Hready eq_refl)
    as (_ & Herr & Hwarn & _ & Himpl_e & Himpl_w).
  fold w' w'' in Herr, Hwarn, Himpl_e, Himpl_w.
  split; [vm_compute; reflexivity |].
  split; [rewrite Herr; vm_compute; reflexivity |].
  split; [rewrite Hwarn; vm_compute; reflexivity |].
  split; [rewrite Himpl_e | rewrite Himpl_w]; vm_compute; reflexivity.
Defined.

(** The situation of the comment at lines 112-115: an interceptor that
    decorated [console.error] after [install] still reaches the host console
    after [uninstall], through the wrapper and the saved original. *)
Example decorated_channel_after_uninstall :
  let ops := [Install; DecorateError 7; Uninstall; ConsoleError [VStr "boom"]] in
  trace (@run Sample.collaborators 8 ops Sample.fresh)
  = [RequireNativeLogBox; SetWarningHandler WarningHandler;
     DecoratorCall 7 [VStr "boom"]; HostCall "console.error" [VStr "boom"]].
Proof. vm_compute. reflexivity. Qed.

(** C4.  [uninstall] repoints the two implementation slots to the saved
    originals, but the property it deletes is [disableLogBox] (line 118)
    while the accessor [install] defined is [disableYellowBox] (line 85): the
    legacy-flag accessor is still on [console] after [uninstall]. *)
Theorem C4_uninstall_leaves_legacy_accessor :
  (forall w, console (state_of (uninstall w)) !! "disableYellowBox"
             = console w !! "disableYellowBox")
  /\ (let w := Sample.installed in
      let w' := state_of (uninstall w) in
      isLogBoxInstalled w = true
      /\ console w !! "disableYellowBox" = Some PLegacyAccessor
      /\ console w' !! "disableYellowBox" = Some PLegacyAccessor
      /\ consoleErrorImpl w' = originalConsoleError w
      /\ consoleWarnImpl w' = originalConsoleWarn w).
Proof.
  split.
  - intros w. unfold uninstall. run_monad.
    destruct (isLogBoxInstalled w); simpl; [| done].
    by rewrite lookup_delete_ne.
  - repeat split; vm_compute; reflexivity.
Qed.

(** C8.  [install] and [uninstall] are idempotent: from any world, a second
    call in a row returns normally and changes nothing, neither the module's
    variables nor [console] nor the calls made to the collaborators. *)
Theorem C8_install_uninstall_idempotent `{Collaborators} fuel w :
  install fuel (state_of (install fuel w)) = (Ok tt, state_of (install fuel w))
  /\ uninstall (state_of (uninstall w)) = (Ok tt, state_of (uninstall w)).
Proof.
  split.
  - apply install_when_installed, install_sets_flag.
  - apply uninstall_when_uninstalled, uninstall_clears_flag.
Qed.

(** C9.  [addLog] and [addException] make no call into the downstream store
    while uninstalled, and forward their record exactly once while
    installed; nothing else changes. *)
Theorem C9_addLog_addException_gated `{Collaborators} log err w :
  addLog log w
  = (Ok tt, if isLogBoxInstalled w then with_trace (trace w ++ [AddLog log]) w else w)
  /\ addException err w
     = (Ok tt,
        if isLogBoxInstalled w then with_trace (trace w ++ [AddException err]) w else w)
  /\ store_calls (trace (state_of (addLog log w)))
     = store_calls (trace w) ++ (if isLogBoxInstalled w then [AddLog log] else [])
  /\ store_calls (trace (state_of (addException err w)))
     = store_calls (trace w)
       ++ (if isLogBoxInstalled w then [AddException err] else []).
Proof.
  unfold addLog, addException, store_calls. run_monad.
  destruct (isLogBoxInstalled w); simpl;
    rewrite ?trace_with_trace, ?List.filter_app, ?app_nil_r; done.
Qed.


(** * Further properties of the two channels *)

Lemma prefix_drop_chars p : forall s,
  String.prefix p s = true -> (p ++ drop_chars (String.length p) s)%string = s.
Proof.
  induction p as [| a p IH]; intros s Hp; [done |].
  destruct s as [| b s]; simpl in Hp; [discriminate |].
  destruct (ascii_dec a b) as [-> |]; [| discriminate].
  change (String b (p ++ drop_chars (String.length p) s)%string = String b s).
  f_equal. by apply IH.
Qed.

Lemma replace_prefix pat rep s :
  String.prefix pat s = true ->
  replace pat rep s = (rep ++ drop_chars (String.length pat) s)%string.
Proof. intros Hp. destruct s; simpl; simpl in Hp; by rewrite Hp. Qed.

Lemma registerWarning_ordinary `{Collaborators} fuel args text p ignored wn w :
  String_ (arg0 args) = Ok text ->
  isLogBoxErrorMessage (VStr text) = false ->
  isRCTLogAdviceWarning args = false ->
  parseLogBoxLog args = Ok p ->
  isMessageIgnored (content (p_message p)) = Ok ignored ->
  originalConsoleWarn w = Some wn -> external wn = true -> depth wn < fuel ->
  registerWarning fuel args w
  = (Ok tt,
     if ignored then w
     else with_trace (trace w ++ external_events wn args
                      ++ [AddLog {| level := warn;
                                    category := p_category p;
                                    message := p_message p;
                                    componentStack := p_componentStack p |}]) w).
Proof.
  intros Htext Hself Hadvice Hparse Hign Horig Hext Hfuel.
  unfold registerWarning, registerWarning_body, bind, lift.
  rewrite Htext, Hself. unfold try_catch, bind, lift, get.
  rewrite Hadvice. simpl. rewrite Hparse, Hign.
  destruct ignored; simpl; [reflexivity |].
  rewrite Horig, call_slot_external by done.
  unfold LogBoxData.addLog, emit, modify.
  by rewrite trace_with_trace, with_trace_twice, <- app_assoc.
Qed.

(** X1.  An ordinary warning (not self-reporting, not an advice, parsed
    without error) that is not ignored reaches the original warn channel
    with its arguments unmodified and is then recorded at level [warn] with
    the parsed category, message and component stack; an ignored one changes
    nothing, so it is hidden from the original console too. *)
Theorem X1_ordinary_warning `{Collaborators} fuel args text p ignored wn w :
  String_ (arg0 args) = Ok text ->
  isLogBoxErrorMessage (VStr text) = false ->
  isRCTLogAdviceWarning args = false ->
  parseLogBoxLog args = Ok p ->
  isMessageIgnored (content (p_message p)) = Ok ignored ->
  originalConsoleWarn w = Some wn -> external wn = true -> depth wn < fuel ->
  registerWarning fuel args w
  = (Ok tt,
     if ignored then w
     else with_trace (trace w ++ external_events wn args
                      ++ [AddLog {| level := warn;
                                    category := p_category p;
                                    message := p_message p;
                                    componentStack := p_componentStack p |}]) w).
Proof.
  intros Htext Hself Hadvice Hparse Hign Horig Hext Hfuel.
  destruct ignored.
  - by rewrite (registerWarning_ordinary fuel args text p true wn w).
  - by rewrite (registerWarning_ordinary fuel args text p false wn w).
Qed.

Lemma X1_ordinary_warning_witness :
  @registerWarning Sample.collaborators 8 [VStr "slow render"; VNull] Sample.installed
  = (Ok tt,
     with_trace
       (trace Sample.installed
        ++ [HostCall "console.warn" [VStr "slow render"; VNull];
            AddLog {| level := warn;
                      category := "slow render";
                      message := {| content := "slow render"; substitutions := [] |};
                      componentStack := [] |}])
       Sample.installed).
Proof.
  apply (@X1_ordinary_warning Sample.collaborators 8 [VStr "slow render"; VNull]
           "slow render"
           {| p_category := "slow render";
              p_message := {| content := "slow render"; substitutions := [] |};
              p_componentStack := [] |}
           false (Bound (Native "console.warn")) Sample.installed);
    try (vm_compute; reflexivity).
  simpl. lia.
Defined.

(** X2.  An error call that is self-reporting, or whose first argument is
    not a string starting with ["Warning: "] (another string, a non-string,
    or no argument at all), goes to the original error channel with its
    arguments unmodified; nothing is recorded, no filter or parser is
    consulted. *)
Theorem X2_plain_error_passes_through `{Collaborators} fuel args e w :
  isLogBoxErrorMessage (arg0 args) || negb (isWarningModuleWarning args) = true ->
  originalConsoleError w = Some e -> external e = true -> depth e < fuel ->
  registerError fuel args w
  = (Ok tt, with_trace (trace w ++ external_events e args) w).
Proof.
  intros Hpath Horig Hext Hfuel.
  unfold registerError, registerError_body.
  destruct (isLogBoxErrorMessage (arg0 args)); simpl in Hpath.
  - unfold bind, get. rewrite Horig. by apply call_slot_external.
  - apply negb_true_iff in Hpath.
    unfold try_catch, bind, get. rewrite Hpath. simpl.
    rewrite Horig. by rewrite call_slot_external.
Qed.

Lemma X2_plain_error_passes_through_witness :
  @registerError Sample.collaborators 8 [] Sample.installed
  = (Ok tt,
     with_trace (trace Sample.installed ++ [HostCall "console.error" []])
                Sample.installed).
Proof.
  apply (@X2_plain_error_passes_through Sample.collaborators 8 []
           (Bound (Native "console.error")) Sample.installed);
    try (vm_compute; reflexivity).
  simpl. lia.
Defined.

(** X3.  A wrapped warning that the filter suppresses completely is dropped
    before it is parsed: no call of the original error channel, no record,
    whatever the parsers and the ignore test would answer. *)
Theorem X3_suppressed_completely_is_dropped `{Collaborators} fuel args fr w :
  isLogBoxErrorMessage (arg0 args) = false ->
  isWarningModuleWarning args = true ->
  checkWarningFilter (replace "Warning: " "" (arg0_string args)) = Ok fr ->
  suppressCompletely fr = true ->
  registerError fuel args w = (Ok tt, w).
Proof.
  intros Hself Hwarn Hfilter Hsupp.
  unfold registerError, registerError_body. rewrite Hself.
  unfold try_catch, bind, lift. rewrite Hwarn. simpl.
  by rewrite Hfilter, Hsupp.
Qed.

Lemma X3_suppressed_completely_is_dropped_witness :
  @registerError Filtered.collaborators 8 [VStr "Warning: noisy"] Sample.installed
  = (Ok tt, Sample.installed).
Proof.
  apply (@X3_suppressed_completely_is_dropped Filtered.collaborators 8
           [VStr "Warning: noisy"]
           {| finalFormat := "noisy"; forceDialogImmediately := false;
              suppressDialog_LEGACY := false; suppressCompletely := true |}
           Sample.installed);
    vm_compute; reflexivity.
Defined.

(** X4.  A wrapped warning that is neither suppressed nor ignored sends one
    argument to the original error channel, the interpolated text, and is
    recorded with the parse of the rewritten arguments at a level fixed by
    the filter's flags: [warn] exactly when [suppressDialog_LEGACY] is set,
    [fatal] exactly when it is not and [forceDialogImmediately] is, [error]
    exactly when neither is. *)
Theorem X4_wrapped_warning_level `{Collaborators} fuel args w fr p s e :
  isLogBoxErrorMessage (arg0 args) = false ->
  isWarningModuleWarning args = true ->
  checkWarningFilter (replace "Warning: " "" (arg0_string args)) = Ok fr ->
  suppressCompletely fr = false ->
  parseLogBoxLog (set_arg0 (VStr ("Warning: " ++ finalFormat fr)) args) = Ok p ->
  isMessageIgnored (content (p_message p)) = Ok false ->
  parseInterpolation (set_arg0 (VStr ("Warning: " ++ finalFormat fr)) args) = Ok s ->
  originalConsoleError w = Some e -> external e = true -> depth e < fuel ->
  exists lv,
    registerError fuel args w
    = (Ok tt,
       with_trace (trace w ++ external_events e [VStr s]
                   ++ [AddLog {| level := lv;
                                 category := p_category p;
                                 message := p_message p;
                                 componentStack := p_componentStack p |}]) w)
    /\ (lv = warn <-> suppressDialog_LEGACY fr = true)
    /\ (lv = fatal <->
        suppressDialog_LEGACY fr = false /\ forceDialogImmediately fr = true)
    /\ (lv = error <->
        suppressDialog_LEGACY fr = false /\ forceDialogImmediately fr = false).
Proof.
  intros Hself Hwarn Hfilter Hsupp Hparse Hign Hinterp Horig Hext Hfuel.
  exists (levelOf fr). split.
  { by apply registerError_wrapped. }
  unfold levelOf.
  destruct (suppressDialog_LEGACY fr), (forceDialogImmediately fr);
    repeat split; intros; try done; by intuition discriminate.
Qed.

Lemma X4_wrapped_warning_level_witness :
  @registerError Sample.collaborators 8 [VStr "Warning: force only"] Sample.installed
  = (Ok tt,
     with_trace
       (trace Sample.installed
        ++ [HostCall "console.error" [VStr "Warning: force only"];
            AddLog {| level := fatal;
                      category := "Warning: force only";
                      message := {| content := "Warning: force only";
                                    substitutions := [] |};
                      componentStack := [] |}])
       Sample.installed).
Proof.
  destruct (@X4_wrapped_warning_level Sample.collaborators 8
              [VStr "Warning: force only"] Sample.installed
              {| finalFormat := "force only"; forceDialogImmediately := true;
                 suppressDialog_LEGACY := false; suppressCompletely := false |}
              {| p_category := "Warning: force only";
                 p_message := {| content := "Warning: force only";
                                 substitutions := [] |};
                 p_componentStack := [] |}
              "Warning: force only" (Bound (Native "console.error")))
    as (lv & Hrun & _ & Hfatal & _).
  1-9: vm_compute; reflexivity.
  1: simpl; lia.
  rewrite Hrun.
  assert (lv = fatal) as -> by (apply Hfatal; by split).
  reflexivity.
Defined.

(** X5.  Stripping the ["Warning: "] prefix (line 208) and putting it back
    (line 222) is a round trip: when the filter hands the format back
    unchanged, the arguments given to the parsers are the caller's
    arguments. *)
Theorem X5_unchanged_format_keeps_arguments args format :
  isWarningModuleWarning args = true ->
  format = replace "Warning: " "" (arg0_string args) ->
  set_arg0 (VStr ("Warning: " ++ format)) args = args.
Proof.
  unfold isWarningModuleWarning, arg0_string, startsWith.
  intros Hwarn ->. destruct args as [| v rest]; [discriminate |].
  simpl in *. destruct v as [| | b | s | r]; try discriminate.
  rewrite (replace_prefix "Warning: " "" s Hwarn).
  change (("" ++ ?x)%string) with x.
  by rewrite (prefix_drop_chars "Warning: " s Hwarn).
Qed.

Lemma X5_unchanged_format_keeps_arguments_witness :
  set_arg0 (VStr ("Warning: " ++ "Each child needs a key")%string)
           [VStr "Warning: Each child needs a key"; VObj (Some "stack")]
  = [VStr "Warning: Each child needs a key"; VObj (Some "stack")].
Proof.
  apply (X5_unchanged_format_keeps_arguments
           [VStr "Warning: Each child needs a key"; VObj (Some "stack")]
           "Each child needs a key");
    vm_compute; reflexivity.
Defined.



(** X7.  Logging never changes the installation: calling any function value,
    or [console.<name>], leaves the installed flag, the saved originals, the
    implementation slots, the [console] object, the disabled flag and the
    registered warning handler as they were, and only appends to the calls
    made so far. *)
Theorem X7_logging_only_appends_calls `{Collaborators} fuel f name args w :
  only_appends w (state_of (call_func fuel f args w))
  /\ only_appends w (state_of (console_call fuel name args w)).
Proof.
  assert (Hframe : forall w', frame w w' -> only_appends w w').
  { intros w' [evs ->]. destruct w. unfold only_appends. simpl. by eauto 10. }
  split; apply Hframe; [apply call_func_frame | apply console_call_frame].
Qed.

(** * Further properties of the installation *)

Section MoreInstallLemmas.
Context `{Collaborators}.

Lemma step_flag fuel o w :
  isLogBoxInstalled (step fuel o w)
  = match o with
    | Install => true
    | Uninstall => false
    | _ => isLogBoxInstalled w
    end.
Proof.
  destruct o as [| | id | id | args | args]; unfold step; simpl.
  - apply install_sets_flag.
  - apply uninstall_clears_flag.
  - rewrite decorate_state. by destruct (console w !! "error") as [[? | ? |] |].
  - rewrite decorate_state. by destruct (console w !! "warn") as [[? | ? |] |].
  - by destruct (frame_fields _ _ (console_call_frame fuel "error" args w)) as (-> & _).
  - by destruct (frame_fields _ _ (console_call_frame fuel "warn" args w)) as (-> & _).
Qed.

(** An [install] that finds the module uninstalled and gets past the saving
    of the originals sets both slots to the two channels. *)
Lemma install_sets_impls fuel w :
  isLogBoxInstalled w = false ->
  originalConsoleError w <> None \/ console_ready w ->
  consoleErrorImpl (state_of (install fuel w)) = Some RegisterError
  /\ consoleWarnImpl (state_of (install fuel w)) = Some RegisterWarning.
Proof.
  intros Hin Hready.
  install_paths w Hin; try done;
    destruct Hready as [Hsaved | [[e He] [wn Hwn]]]; congruence.
Qed.

End MoreInstallLemmas.

(** X8.  [isInstalled()] reports what the last [install]/[uninstall] asked
    for, from any world and whatever else happened in between (logging,
    decoration by others, an [install] that threw): the flag is written
    before anything that can fail. *)
Theorem X8_isInstalled_follows_last_toggle `{Collaborators} fuel ops w :
  isInstalled (run fuel ops w)
  = (Ok (last_toggle ops (isLogBoxInstalled w)), run fuel ops w).
Proof.
  unfold isInstalled, bind, get, ret.
  f_equal. f_equal. revert w.
  induction ops as [| o rest IH]; intros w; [done |].
  unfold run in *. cbn [fold_left]. rewrite IH, step_flag.
  by destruct o.
Qed.

Section Settling.
Context `{Collaborators}.

Lemma step_pristine fuel o e wn w :
  is_install o = false -> is_decorate o = false ->
  pristine e wn w -> pristine e wn (step fuel o w).
Proof.
  intros Hinst Hdec (Hin & Horig & He & Hwn).
  destruct o as [| | id | id | args | args]; try discriminate; unfold step; simpl.
  - by rewrite uninstall_when_uninstalled.
  - destruct (frame_fields _ _ (console_call_frame fuel "error" args w))
      as (Hi & Ho & _ & _ & Hc).
    unfold pristine. by rewrite Hi, Ho, Hc.
  - destruct (frame_fields _ _ (console_call_frame fuel "warn" args w))
      as (Hi & Ho & _ & _ & Hc).
    unfold pristine. by rewrite Hi, Ho, Hc.
Qed.

Lemma install_settles fuel e wn w :
  pristine e wn w -> settled e wn (step fuel Install w).
Proof.
  intros (Hin & Horig & He & Hwn).
  unfold originals in Horig. inversion Horig as [[Hnone Hnone']].
  destruct (install_first fuel w e wn Hin Hnone He Hwn) as (Ho & Hce & Hcw).
  destruct (install_sets_impls fuel w Hin) as [Hie Hiw].
  { right. split; eauto. }
  unfold settled, step. simpl.
  by rewrite install_sets_flag, Ho, Hce, Hcw, Hie, Hiw.
Qed.

Lemma step_settled fuel o e wn w :
  is_decorate o = false ->
  settled e wn w -> settled e wn (step fuel o w).
Proof.
  intros Hdec (Horig & Hce & Hcw & Hie & Hiw).
  assert (Hsaved : originalConsoleError w <> None).
  { unfold originals in Horig. inversion Horig as [[He Hw]]. by rewrite He. }
  destruct o as [| | id | id | args | args]; try discriminate; unfold step; simpl.
  - destruct (isLogBoxInstalled w) eqn:Hin.
    { rewrite install_when_installed by done. unfold settled. simpl.
      by rewrite Hin. }
    destruct (install_keeps_originals fuel w Hsaved) as (Ho & Hce' & Hcw').
    destruct (install_sets_impls fuel w Hin) as [Hie' Hiw']; [by left |].
    unfold settled.
    by rewrite install_sets_flag, Ho, Hce', Hcw', Hie', Hiw'.
  - destruct (isLogBoxInstalled w) eqn:Hin.
    + destruct (uninstall_repoints w Hin) as [Hie' Hiw'].
      unfold settled.
      rewrite uninstall_clears_flag, uninstall_keeps_originals,
        !uninstall_keeps_console_channels, Hie', Hiw' by done.
      unfold originals in Horig. inversion Horig as [[He Hw]].
      by rewrite He, Hw.
    + rewrite uninstall_when_uninstalled by done. unfold settled. simpl.
      by rewrite Hin.
  - destruct (frame_fields _ _ (console_call_frame fuel "error" args w))
      as (Hi & Ho & Hei & Hwi & Hc).
    unfold settled. by rewrite Hi, Ho, Hei, Hwi, Hc.
  - destruct (frame_fields _ _ (console_call_frame fuel "warn" args w))
      as (Hi & Ho & Hei & Hwi & Hc).
    unfold settled. by rewrite Hi, Ho, Hei, Hwi, Hc.
Qed.

Lemma run_settled fuel ops e wn : forall w,
  existsb is_decorate ops = false ->
  settled e wn w -> settled e wn (run fuel ops w).
Proof.
  induction ops as [| o rest IH]; intros w Hdec Hw; [done |].
  cbn [existsb] in Hdec. apply orb_false_elim in Hdec as [Ho Hrest].
  unfold run in *. cbn [fold_left]. apply IH; [done |]. by apply step_settled.
Qed.

Lemma run_settles fuel ops e wn : forall w,
  existsb is_install ops = true ->
  existsb is_decorate ops = false ->
  pristine e wn w -> settled e wn (run fuel ops w).
Proof.
  induction ops as [| o rest IH]; intros w Hinst Hdec Hw; [discriminate |].
  cbn [existsb] in Hinst, Hdec. apply orb_false_elim in Hdec as [Ho Hrest].
  unfold run in *. cbn [fold_left].
  destruct (is_install o) eqn:Hio.
  - destruct o; try discriminate.
    apply (run_settled fuel rest e wn); [done |]. by apply install_settles.
  - apply IH; [done | done |]. by apply step_pristine.
Qed.

(** How [console.warn]/[console.error] run on a settled module. *)
Lemma console_call_settled fuel e wn args w :
  settled e wn w ->
  console_call (S (S fuel)) "error" args w
  = (if isLogBoxInstalled w then registerError fuel args w
     else call_func fuel e args w)
  /\ console_call (S (S fuel)) "warn" args w
     = (if isLogBoxInstalled w then registerWarning fuel args w
        else call_func fuel wn args w).
Proof.
  intros (_ & Hce & Hcw & Hie & Hiw).
  unfold console_call, bind, get. rewrite Hce, Hcw. simpl.
  unfold bind, get. rewrite Hie, Hiw.
  by destruct (isLogBoxInstalled w).
Qed.

End Settling.

(** X9.  From the module as loaded, after any sequence of [install],
    [uninstall] and logging calls that contains an [install], the wrappers
    are on [console], the saved originals are the functions that were on
    [console] at the start, bound, and each implementation slot holds the
    channel ([registerError], [registerWarning]) while installed and the
    saved original while uninstalled. *)
Theorem X9_slots_follow_installed_flag `{Collaborators} fuel ops e wn w :
  module_loaded w ->
  console w !! "error" = Some (PMethod e) ->
  console w !! "warn" = Some (PMethod wn) ->
  existsb is_install ops = true ->
  existsb is_decorate ops = false ->
  settled e wn (run fuel ops w).
Proof.
  intros (Hin & He & Hw & _) Hce Hcw Hinst Hdec.
  apply run_settles; try done.
  unfold pristine, originals. by rewrite He, Hw.
Qed.

Lemma X9_slots_follow_installed_flag_witness :
  settled (Native "console.error") (Native "console.warn")
          (@run Sample.collaborators 8
             [ConsoleWarn [VStr "early"]; Install; ConsoleError [VStr "Warning: x"];
              Uninstall; Install; Uninstall]
             Sample.fresh).
Proof.
  apply (@X9_slots_follow_installed_flag Sample.collaborators 8
           [ConsoleWarn [VStr "early"]; Install; ConsoleError [VStr "Warning: x"];
            Uninstall; Install; Uninstall]
           (Native "console.error") (Native "console.warn") Sample.fresh);
    try (vm_compute; reflexivity).
  repeat split.
Defined.

(** X10.  On a module that was installed once and whose [console] nobody
    else decorated, [console.error(...args)] and [console.warn(...args)]
    run the channel while installed; while
    uninstalled they do exactly what the host functions saved at the first
    [install] do, so the console behaves as it did before LogBox was ever
    installed. *)
Theorem X10_console_dispatch `{Collaborators} fuel e wn args w :
  settled e wn w ->
  external e = true -> external wn = true ->
  depth e < fuel -> depth wn < fuel ->
  console_call (S (S fuel)) "error" args w
  = (if isLogBoxInstalled w then registerError fuel args w
     else (Ok tt, with_trace (trace w ++ external_events e args) w))
  /\ console_call (S (S fuel)) "warn" args w
     = (if isLogBoxInstalled w then registerWarning fuel args w
        else (Ok tt, with_trace (trace w ++ external_events wn args) w)).
Proof.
  intros Hsettled Hee Hew Hde Hdw.
  destruct (console_call_settled fuel e wn args w Hsettled) as [-> ->].
  by rewrite !call_external.
Qed.

Lemma X10_console_dispatch_witness :
  let w := @run Sample.collaborators 8 [Install; Uninstall] Sample.fresh in
  @console_call Sample.collaborators 8 "error" [VStr "Warning: both flags"] w
  = (Ok tt, with_trace (trace w ++ [HostCall "console.error"
                                      [VStr "Warning: both flags"]]) w).
Proof.
  intros w.
  destruct (@X10_console_dispatch Sample.collaborators 6
              (Native "console.error") (Native "console.warn")
              [VStr "Warning: both flags"] w) as [Herror _].
  - repeat split; vm_compute; reflexivity.
  - reflexivity.
  - reflexivity.
  - simpl. lia.
  - simpl. lia.
  - exact Herror.
Defined.

(** X11.  [uninstall] followed by [install] is a round trip on an installed
    module whose store is not disabled, outside a testing environment: the
    world is the one before, and the only calls made are the [require] and
    the registration of the warning handler.  Nothing is captured again and
    [console] is not written to. *)
Theorem X11_uninstall_install_round_trip `{Collaborators} fuel oe w :
  isLogBoxInstalled w = true ->
  originalConsoleError w = Some oe ->
  consoleErrorImpl w = Some RegisterError ->
  consoleWarnImpl w = Some RegisterWarning ->
  console w !! "disableYellowBox" = Some PLegacyAccessor ->
  console w !! "disableLogBox" = None ->
  logBoxDisabled w = false ->
  isTesting w = false ->
  warningHandler w = Some WarningHandler ->
  install fuel (state_of (uninstall w))
  = (Ok tt,
     with_trace (trace w ++ [RequireNativeLogBox; SetWarningHandler WarningHandler]) w).
Proof.
  intros Hin Horig Hie Hiw Hacc Hnone Hdis Htest Hhandler.
  unfold uninstall, install. run_monad. rewrite Hin. simpl. rewrite Horig. simpl.
  unfold disableYellowBox_is_true. simpl.
  rewrite lookup_delete_ne, Hacc, Hdis by done. simpl.
  rewrite Htest. simpl.
  destruct w as [inst oe' ow ie iw c dis wh test tr]. simpl in *. subst.
  rewrite ?delete_id by done. rewrite insert_id by done.
  run_monad. unfold with_trace, with_warningHandler, modify. simpl.
  by rewrite <- app_assoc.
Qed.

Lemma X11_uninstall_install_round_trip_witness :
  @install Sample.collaborators 8 (state_of (uninstall Sample.installed))
  = (Ok tt,
     with_trace (trace Sample.installed
                 ++ [RequireNativeLogBox; SetWarningHandler WarningHandler])
                Sample.installed).
Proof.
  apply (@X11_uninstall_install_round_trip Sample.collaborators 8
           (Bound (Native "console.error")) Sample.installed);
    vm_compute; reflexivity.
Defined.

(** X12.  [uninstall] does not take back the warning handler that [install]
    registered with [RCTLog] (line 100), and that handler calls
    [registerWarning] directly: a native warning handed to it after
    [uninstall] is still passed to the original warn channel and still
    recorded in the store, although [isInstalled()] is false. *)
Theorem X12_warning_handler_outlives_uninstall
        `{Collaborators} fuel args text p wn w :
  warningHandler w = Some WarningHandler ->
  originalConsoleWarn w = Some wn -> external wn = true -> depth wn < fuel ->
  String_ (arg0 args) = Ok text ->
  isLogBoxErrorMessage (VStr text) = false ->
  isRCTLogAdviceWarning args = false ->
  parseLogBoxLog args = Ok p ->
  isMessageIgnored (content (p_message p)) = Ok false ->
  let w' := state_of (uninstall w) in
  isLogBoxInstalled w' = false
  /\ warningHandler w' = Some WarningHandler
  /\ call_slot (call_func (S fuel)) (warningHandler w') args w'
     = (Ok tt,
        with_trace (trace w' ++ external_events wn args
                    ++ [AddLog {| level := warn;
                                  category := p_category p;
                                  message := p_message p;
                                  componentStack := p_componentStack p |}]) w').
Proof.
  intros Hhandler Horig Hext Hfuel Htext Hself Hadvice Hparse Hign w'.
  assert (Hkeep : warningHandler w' = Some WarningHandler
                  /\ originalConsoleWarn w' = Some wn).
  { subst w'. unfold uninstall. run_monad.
    by destruct (isLogBoxInstalled w). }
  destruct Hkeep as [Hh Ho].
  split; [apply uninstall_clears_flag |]. split; [exact Hh |].
  rewrite Hh. simpl. fold (registerWarning fuel args w').
  by rewrite (registerWarning_ordinary fuel args text p false wn w').
Qed.

Lemma X12_warning_handler_outlives_uninstall_witness :
  let w' := state_of (uninstall Sample.installed) in
  isLogBoxInstalled w' = false
  /\ @call_slot (@call_func Sample.collaborators 8) (warningHandler w')
                [VStr "native warning"] w'
     = (Ok tt,
        with_trace
          (trace w'
           ++ [HostCall "console.warn" [VStr "native warning"];
               AddLog {| level := warn;
                         category := "native warning";
                         message := {| content := "native warning";
                                       substitutions := [] |};
                         componentStack := [] |}])
          w').
Proof.
  intros w'.
  destruct (@X12_warning_handler_outlives_uninstall Sample.collaborators 7
              [VStr "native warning"] "native warning"
              {| p_category := "native warning";
                 p_message := {| content := "native warning";
                                 substitutions := [] |};
                 p_componentStack := [] |}
              (Bound (Native "console.warn")) Sample.installed)
    as (Hflag & _ & Hcall).
  1-3: vm_compute; reflexivity.
  1: simpl; lia.
  1-5: vm_compute; reflexivity.
  split; [exact Hflag | exact Hcall].
Defined.

(** X13.  A first [install] on a [console] whose [error] is not a function
    throws a TypeError after the installed flag was set and before anything
    was saved or wrapped: [isInstalled()] is true from then on, and calling
    [install] again does nothing. *)
Theorem X13_install_without_console_error `{Collaborators} fuel w :
  isLogBoxInstalled w = false ->
  originalConsoleError w = None ->
  (forall f, console w !! "error" <> Some (PMethod f)) ->
  let w1 := with_trace (trace w ++ [RequireNativeLogBox]) (with_installed true w) in
  install fuel w = (Throw TypeError_not_a_function, w1)
  /\ install fuel w1 = (Ok tt, w1).
Proof.
  intros Hin Hnone Hnofun w1. split.
  - unfold install, console_bind. run_monad. rewrite Hin. simpl.
    rewrite Hnone. simpl.
    destruct (console w !! "error") as [[f | v |] |] eqn:Hlook; try reflexivity.
    by destruct (Hnofun f).
  - by apply install_when_installed.
Qed.

Lemma X13_install_without_console_error_witness :
  let w1 := with_trace [RequireNativeLogBox] (with_installed true Filtered.broken) in
  @install Sample.collaborators 8 Filtered.broken = (Throw TypeError_not_a_function, w1)
  /\ @install Sample.collaborators 8 w1 = (Ok tt, w1).
Proof.
  apply (@X13_install_without_console_error Sample.collaborators 8 Filtered.broken).
  - reflexivity.
  - reflexivity.
  - intros f Hlook. vm_compute in Hlook. discriminate Hlook.
Defined.

(** X16.  Once the accessor is defined, [console.disableYellowBox] is a view
    of the store's disabled flag: reading it gives that flag, assigning a
    boolean sets it (the assignment reads back, even if the deprecation
    notice that follows throws), and [ignoreAllLogs(value)] shows through
    it, an absent argument counting as [true]. *)
Theorem X16_legacy_flag_is_view_of_disabled `{Collaborators} fuel v value w :
  console w !! "disableYellowBox" = Some PLegacyAccessor ->
  disableYellowBox_is_true w = logBoxDisabled w
  /\ logBoxDisabled (state_of (set_disableYellowBox fuel v w)) = v
  /\ disableYellowBox_is_true (state_of (set_disableYellowBox fuel v w)) = v
  /\ disableYellowBox_is_true (state_of (ignoreAllLogs value w))
     = match value with None => true | Some b => b end.
Proof.
  intros Hacc. unfold disableYellowBox_is_true, set_disableYellowBox, ignoreAllLogs.
  run_monad. rewrite Hacc. simpl.
  repeat split; try done.
  - frame_console_call; by destruct w.
  - frame_console_call; destruct w; simpl in *; by rewrite Hacc.
Qed.

Lemma X16_legacy_flag_is_view_of_disabled_witness :
  disableYellowBox_is_true
    (state_of (@set_disableYellowBox Sample.collaborators 8 true Sample.installed))
  = true
  /\ disableYellowBox_is_true (state_of (ignoreAllLogs (Some false) Sample.installed))
     = false.
Proof.
  destruct (@X16_legacy_flag_is_view_of_disabled Sample.collaborators 8 true
              (Some false) Sample.installed) as (_ & _ & Hset & Hignore).
  - vm_compute. reflexivity.
  - split; [exact Hset | exact Hignore].
Defined.

Section FlagMigration.
Context `{Collaborators}.

(** The flag test only looks at the [disableYellowBox] property and at the
    store's flag. *)
Lemma disableYellowBox_is_true_ext w1 w2 :
  console w1 !! "disableYellowBox" = console w2 !! "disableYellowBox" ->
  logBoxDisabled w1 = logBoxDisabled w2 ->
  disableYellowBox_is_true w1 = disableYellowBox_is_true w2.
Proof. unfold disableYellowBox_is_true. by intros -> ->. Qed.

End FlagMigration.

(** X14.  An [install] that finds the module uninstalled and returns
    normally leaves the accessor on [console.disableYellowBox] and the
    warning handler registered, and carries the legacy flag over: the store
    is disabled afterwards exactly when the flag read [true] before, or the
    environment is a testing one, or the store was disabled already; the
    flag reads the same through the accessor. *)
Theorem X14_install_migrates_legacy_flag `{Collaborators} fuel w :
  isLogBoxInstalled w = false ->
  outcome_of (install fuel w) = Ok tt ->
  let w' := state_of (install fuel w) in
  console w' !! "disableYellowBox" = Some PLegacyAccessor
  /\ warningHandler w' = Some WarningHandler
  /\ logBoxDisabled w'
     = disableYellowBox_is_true w || isTesting w || logBoxDisabled w
  /\ disableYellowBox_is_true w' = logBoxDisabled w'.
Proof.
  intros Hin Hok w'. subst w'. revert Hok.
  unfold install, console_bind. run_monad. rewrite Hin. simpl.
  destruct (originalConsoleError w) as [oe |] eqn:Horig; simpl.
  - match goal with
    | |- context [disableYellowBox_is_true ?w1] =>
        rewrite (disableYellowBox_is_true_ext w1 w) by done
    end.
    destruct (disableYellowBox_is_true w) eqn:Hflag; simpl.
    + frame_console_call; simpl; [| discriminate].
      intros _. unfold disableYellowBox_is_true.
      destruct (isTesting w); simpl; rewrite lookup_insert_eq; by destruct w.
    + intros _. unfold disableYellowBox_is_true.
      destruct (isTesting w); simpl; rewrite lookup_insert_eq; by destruct w.
  - destruct (console w !! "error") as [[e | v |] |] eqn:He; simpl;
      try discriminate.
    destruct (console w !! "warn") as [[wn | v |] |] eqn:Hwn; simpl;
      try discriminate.
    match goal with
    | |- context [disableYellowBox_is_true ?w1] =>
        rewrite (disableYellowBox_is_true_ext w1 w)
          by (simpl; by rewrite ?lookup_insert_ne)
    end.
    destruct (disableYellowBox_is_true w) eqn:Hflag; simpl.
    + frame_console_call; simpl; [| discriminate].
      intros _. unfold disableYellowBox_is_true.
      destruct (isTesting w); simpl; rewrite lookup_insert_eq; by destruct w.
    + intros _. unfold disableYellowBox_is_true.
      destruct (isTesting w); simpl; rewrite lookup_insert_eq; by destruct w.
Qed.

Lemma X14_install_migrates_legacy_flag_witness :
  let w' := state_of (@install Sample.collaborators 8 Filtered.flagged) in
  console w' !! "disableYellowBox" = Some PLegacyAccessor
  /\ logBoxDisabled w' = true
  /\ disableYellowBox_is_true w' = true.
Proof.
  intros w'.
  destruct (@X14_install_migrates_legacy_flag Sample.collaborators 8
              Filtered.flagged) as (Hacc & _ & Hdis & Hread).
  - reflexivity.
  - vm_compute. reflexivity.
  - fold w' in Hacc, Hdis, Hread.
    split; [exact Hacc |]. split; [exact Hdis |]. rewrite Hread. exact Hdis.
Defined.

(** Two worlds with the same fields are the same world. *)
Lemma world_eq (w1 w2 : world) :
  isLogBoxInstalled w1 = isLogBoxInstalled w2 ->
  originalConsoleError w1 = originalConsoleError w2 ->
  originalConsoleWarn w1 = originalConsoleWarn w2 ->
  consoleErrorImpl w1 = consoleErrorImpl w2 ->
  consoleWarnImpl w1 = consoleWarnImpl w2 ->
  console w1 = console w2 ->
  logBoxDisabled w1 = logBoxDisabled w2 ->
  warningHandler w1 = warningHandler w2 ->
  isTesting w1 = isTesting w2 ->
  trace w1 = trace w2 ->
  w1 = w2.
Proof. destruct w1, w2. simpl. by intros -> -> -> -> -> -> -> -> -> ->. Qed.

Section Notice.
Context `{Collaborators}.

(** [console.warn] through the wrapper and the warning channel returns
    normally for a string argument when the saved original error function is
    a host function. *)
Lemma warn_wrapper_returns fuel s oe w :
  console w !! "warn" = Some (PMethod WarnWrapper) ->
  consoleWarnImpl w = Some RegisterWarning ->
  originalConsoleError w = Some oe -> external oe = true -> depth oe < fuel ->
  outcome_of (console_call (S (S fuel)) "warn" [VStr s] w) = Ok tt.
Proof.
  intros Hcw Hiw Horig Hext Hfuel.
  unfold console_call, bind, get. rewrite Hcw. simpl.
  unfold bind, get. rewrite Hiw. simpl.
  destruct (isLogBoxErrorMessage (VStr s)) eqn:Hself.
  - unfold registerWarning_body, bind, lift, get. simpl. rewrite Hself, Horig.
    by rewrite call_slot_external.
  - by apply (registerWarning_body_no_throw _ [VStr s] s).
Qed.

End Notice.

(** X15.  Because the accessor outlives [uninstall], a later [install] reads
    the store's flag through it: when the store is disabled, that [install]
    calls [setDisabled(true)] again and sends the deprecation notice for
    [console.disableYellowBox] through [console.warn], where the warning
    channel, just put back, passes it to the original warn channel and
    records it. *)
Theorem X15_reinstall_while_disabled_warns `{Collaborators} fuel oe wn p w :
  isLogBoxInstalled w = false ->
  originalConsoleError w = Some oe ->
  originalConsoleWarn w = Some wn -> external wn = true -> depth wn < fuel ->
  console w !! "warn" = Some (PMethod WarnWrapper) ->
  console w !! "disableYellowBox" = Some PLegacyAccessor ->
  logBoxDisabled w = true ->
  isLogBoxErrorMessage (VStr deprecation_notice) = false ->
  parseLogBoxLog [VStr deprecation_notice] = Ok p ->
  isMessageIgnored (content (p_message p)) = Ok false ->
  install (S (S fuel)) w
  = (Ok tt,
     with_trace
       (trace w
        ++ [RequireNativeLogBox; SetDisabled true]
        ++ external_events wn [VStr deprecation_notice]
        ++ [AddLog {| level := warn;
                      category := p_category p;
                      message := p_message p;
                      componentStack := p_componentStack p |}]
        ++ (if isTesting w then [SetDisabled true] else [])
        ++ [SetWarningHandler WarningHandler])
       (with_warningHandler (Some WarningHandler)
          (with_impls (Some RegisterError) (Some RegisterWarning)
             (with_installed true w)))).
Proof.
  intros Hin Horig Hwarn Hext Hfuel Hcw Hacc Hdis Hself Hparse Hign.
  unfold install. run_monad. rewrite Hin. simpl. rewrite Horig. simpl.
  unfold disableYellowBox_is_true at 1. simpl. rewrite Hacc, Hdis. simpl.
  unfold console_call, bind, get. simpl. rewrite Hcw. simpl.
  unfold bind, get. simpl.
  match goal with
  | |- context [registerWarning_body ?c ?a ?w1] =>
      change (registerWarning_body c a w1) with (registerWarning fuel a w1);
      rewrite (registerWarning_ordinary fuel a deprecation_notice p false wn w1)
        by done
  end.
  simpl. rewrite insert_id by done.
  clear Hself Hparse. generalize (external_events wn [VStr deprecation_notice]).
  intros evs.
  destruct w as [inst oe' ow ie iw c dis wh test tr]. simpl in *. subst.
  destruct test; simpl; unfold emit, modify; simpl; f_equal;
    apply world_eq; simpl; try reflexivity; by rewrite <- !app_assoc.
Qed.

Lemma X15_reinstall_while_disabled_warns_witness :
  let w := state_of (uninstall
                       (state_of (@install Sample.collaborators 8 Filtered.testing))) in
  In (HostCall "console.warn" [VStr deprecation_notice])
     (trace (state_of (@install Sample.collaborators 8 w))).
Proof.
  intros w.
  rewrite (@X15_reinstall_while_disabled_warns Sample.collaborators 6
             (Bound (Native "console.error")) (Bound (Native "console.warn"))
             {| p_category := deprecation_notice;
                p_message := {| content := deprecation_notice;
                                substitutions := [] |};
                p_componentStack := [] |} w).
  all: try (vm_compute; reflexivity).
  2: simpl; lia.
  unfold state_of. cbn [snd]. rewrite trace_with_trace.
  apply in_or_app. right. apply in_or_app. right. apply in_or_app. left.
  left. reflexivity.
Defined.

(** X17.  A first [install] on a [console] whose [error] and [warn] are
    functions, [error] a host function, returns normally, whatever the
    collaborators answer about the deprecation notice. *)
Theorem X17_first_install_returns `{Collaborators} fuel e wn w :
  isLogBoxInstalled w = false ->
  originalConsoleError w = None ->
  console w !! "error" = Some (PMethod e) ->
  console w !! "warn" = Some (PMethod wn) ->
  external e = true -> S (depth e) < fuel ->
  outcome_of (install (S (S fuel)) w) = Ok tt.
Proof.
  intros Hin Hnone He Hwn Hext Hfuel.
  unfold install, console_bind. run_monad. rewrite Hin. simpl.
  rewrite Hnone. simpl. rewrite He. simpl. rewrite Hwn. simpl.
  destruct (disableYellowBox_is_true _); simpl.
  - match goal with
    | |- context [console_call ?F ?n ?a ?w1] =>
        pose proof (warn_wrapper_returns fuel deprecation_notice (Bound e) w1)
          as Hret;
        destruct (console_call F n a w1) as [r w2]
    end.
    simpl in Hret. rewrite lookup_insert_eq in Hret.
    specialize (Hret eq_refl eq_refl eq_refl Hext Hfuel). simpl in Hret.
    subst r. simpl. by destruct (isTesting w2).
  - by destruct (isTesting w).
Qed.

Lemma X17_first_install_returns_witness :
  outcome_of (@install Sample.collaborators 8 Filtered.flagged) = Ok tt.
Proof.
  apply (@X17_first_install_returns Sample.collaborators 6
           (Native "console.error") (Native "console.warn") Filtered.flagged);
    try (vm_compute; reflexivity).
  simpl. lia.
Defined.
